(** * Joystick.c: the action sequencer of the egg collector / hatcher

    A shallow embedding of the report builder ([reset_report],
    [take_action]), the sequence runner ([do_steps]) and the top-level
    state machine with its echo buffer ([GetNextReport]) of
    [src/Joystick.c], followed by the properties the specification states
    about them.

    Conventions.
    - The firmware targets an AVR micro-controller: [int] is 16 bits wide.
      Unsigned fields ([uint8_t], [uint16_t]) are integers of [Z] with
      their wrap-around written out ([to_uint8], [to_uint16]).  Overflow of
      a signed [int], an array read out of bounds and a floating-point
      value that does not fit the [int] it is stored in are undefined in C:
      the functions below return [None] there.
    - The globals of the file are the fields of the record [Engine]; a
      function that writes globals takes the engine and returns the next.
      The report a function writes through its pointer is taken and
      returned as a value.
    - The headers [Joystick.h], [instructions.h], [settings.h] and
      [egg_cycles.h] are not part of the sources: their constants and
      tables are the fields of four classes, and every definition is
      parametric in them. *)

From Stdlib Require Import ZArith List Bool Lia QArith Qabs Qround Lqa.
Import ListNotations.
Close Scope Q_scope.
Local Open Scope Z_scope.

(** ** Machine integers *)

Definition INT_MIN : Z := -32768.
Definition INT_MAX : Z := 32767.

Definition to_uint8 (z : Z) : Z := z mod 256.
Definition to_uint16 (z : Z) : Z := z mod 65536.

(** The result of a signed [int] operation: undefined out of range. *)
Definition int_of (z : Z) : option Z :=
  if (INT_MIN <=? z) && (z <=? INT_MAX) then Some z else None.

(** [x % m] of C truncates towards zero: [Z.rem]. *)
Definition c_mod (x m : Z) : Z := Z.rem x m.

Definition bind {A B : Type} (m : option A) (k : A -> option B) : option B :=
  match m with
  | Some a => k a
  | None => None
  end.

Notation "'let?' x ':=' m 'in' k" :=
  (bind m (fun x => k))
  (at level 10, x pattern, m at level 100, k at level 200).

(** ** Data *)

(** [action_t]: the actions [take_action] names; [other_action] stands for
    any further value of the enumeration, which the [default] branch
    handles. *)
Inductive action_t : Type :=
| press_a | press_b | press_x | press_y | press_r | press_l
| press_plus | press_home
| hang
| L_left | L_right | L_up | L_down
| L_up_right | L_up_right_slight
| L_left_slight | L_right_slight | L_up_slight | L_down_slight
| other_action (code : Z).

Record command_t : Type := mk_command {
  action : action_t;
  duration : Z
}.

(** [USB_JoystickReport_Input_t], with the fields the file writes. *)
Record USB_JoystickReport_Input_t : Type := mk_report {
  Button : Z;
  HAT : Z;
  LX : Z;
  LY : Z;
  RX : Z;
  RY : Z
}.

Inductive State_t : Type :=
| SYNC_CONTROLLER
| BREATHE
| FLY_TO_NURSERY
| IN_OUT_NURSERY
| GO_TO_CIRCLE1
| CIRCLE1
| APPROACH_NPC
| SPEAK
| GO_TO_CIRCLE2
| GO_TO_CIRCLE3
| OPEN_BOX
| SELECT_COL
| GRAB_EGGS1_PRE
| GRAB_EGGS2_PRE
| GRAB_EGGS3_PRE
| GRAB_EGGS4_PRE
| GRAB_EGGS5_PRE
| GRAB_EGGS6_PRE
| SELECT_COL2
| GRAB_EGGS1_POST
| GRAB_EGGS2_POST
| GRAB_EGGS3_POST
| GRAB_EGGS4_POST
| GRAB_EGGS5_POST
| GRAB_EGGS6_POST
| CLOSE_BOX
| CIRCLE_CW
| FLY_TO_NURSERY2
| SAVE
| SLEEP
| DONE.

(** The globals of [Joystick.c] (lines 276-289).  [portsval] is only used
    under [ALERT_WHEN_DONE], to drive the output ports, and is left out. *)
Record Engine : Type := mk_engine {
  state : State_t;
  echoes : Z;
  last_report : USB_JoystickReport_Input_t;
  duration_count : Z;
  bufindex : Z;
  num_boxes : Z;
  egg_count : Z;
  egg_set : Z;
  breeding_duration : Z;
  new_round : Z
}.

(** ** The headers, as parameters *)

(** [Joystick.h]: each constant is given as the value of the field it is
    stored in. *)
Class Joystick_h : Type := {
  STICK_MIN : Z;
  STICK_CENTER : Z;
  STICK_MAX : Z;
  HAT_CENTER : Z;
  SWITCH_A : Z;
  SWITCH_B : Z;
  SWITCH_X : Z;
  SWITCH_Y : Z;
  SWITCH_R : Z;
  SWITCH_L : Z;
  SWITCH_PLUS : Z;
  SWITCH_HOME : Z
}.

(** [settings.h]. *)
Class settings_h : Type := {
  flame_body : Z;
  nat_dex_number : Z;
  save : Z;
  number_of_boxes : Z;
  initial_egg_checks : Z;
  subsequent_egg_checks : Z
}.

(** [egg_cycles.h]: the table of cycle counts per species. *)
Class egg_cycles_h : Type := {
  egg_cycles : list Z
}.

(** [instructions.h]: the step tables. *)
Class instructions_h : Type := {
  wake_up_hang : list command_t;
  fly_to_breading_steps : list command_t;
  go_in_out_nursery : list command_t;
  go_to_circle1 : list command_t;
  approach : list command_t;
  speak : list command_t;
  go_to_circle2 : list command_t;
  go_to_circle3 : list command_t;
  open_box : list command_t;
  select_col : list command_t;
  grab_eggs1_pre : list command_t;
  grab_eggs2_pre : list command_t;
  grab_eggs3_pre : list command_t;
  grab_eggs4_pre : list command_t;
  grab_eggs5_pre : list command_t;
  grab_eggs6_pre : list command_t;
  grab_eggs1_post : list command_t;
  grab_eggs2_post : list command_t;
  grab_eggs3_post : list command_t;
  grab_eggs4_post : list command_t;
  grab_eggs5_post : list command_t;
  grab_eggs6_post : list command_t;
  close_box : list command_t;
  save_game : list command_t;
  sleep : list command_t
}.

(** The floating-point arithmetic of the target: [fl x] is the value of
    the format nearest to the real [x] (every operation on [double]s
    returns the rounded exact result). *)
Class double_arith : Type := {
  fl : Q -> Q
}.

(** ** Writing one field of a record *)

Definition set_Button (v : Z) (r : USB_JoystickReport_Input_t) :=
  mk_report v (HAT r) (LX r) (LY r) (RX r) (RY r).
Definition set_LX (v : Z) (r : USB_JoystickReport_Input_t) :=
  mk_report (Button r) (HAT r) v (LY r) (RX r) (RY r).
Definition set_LY (v : Z) (r : USB_JoystickReport_Input_t) :=
  mk_report (Button r) (HAT r) (LX r) v (RX r) (RY r).
Definition set_RX (v : Z) (r : USB_JoystickReport_Input_t) :=
  mk_report (Button r) (HAT r) (LX r) (LY r) v (RY r).
Definition set_RY (v : Z) (r : USB_JoystickReport_Input_t) :=
  mk_report (Button r) (HAT r) (LX r) (LY r) (RX r) v.
Definition set_HAT (v : Z) (r : USB_JoystickReport_Input_t) :=
  mk_report (Button r) v (LX r) (LY r) (RX r) (RY r).

Definition set_state (v : State_t) (e : Engine) :=
  mk_engine v (echoes e) (last_report e) (duration_count e) (bufindex e)
    (num_boxes e) (egg_count e) (egg_set e) (breeding_duration e)
    (new_round e).
Definition set_echoes (v : Z) (e : Engine) :=
  mk_engine (state e) v (last_report e) (duration_count e) (bufindex e)
    (num_boxes e) (egg_count e) (egg_set e) (breeding_duration e)
    (new_round e).
Definition set_last_report (v : USB_JoystickReport_Input_t) (e : Engine) :=
  mk_engine (state e) (echoes e) v (duration_count e) (bufindex e)
    (num_boxes e) (egg_count e) (egg_set e) (breeding_duration e)
    (new_round e).
Definition set_duration_count (v : Z) (e : Engine) :=
  mk_engine (state e) (echoes e) (last_report e) v (bufindex e)
    (num_boxes e) (egg_count e) (egg_set e) (breeding_duration e)
    (new_round e).
Definition set_bufindex (v : Z) (e : Engine) :=
  mk_engine (state e) (echoes e) (last_report e) (duration_count e) v
    (num_boxes e) (egg_count e) (egg_set e) (breeding_duration e)
    (new_round e).
Definition set_num_boxes (v : Z) (e : Engine) :=
  mk_engine (state e) (echoes e) (last_report e) (duration_count e)
    (bufindex e) v (egg_count e) (egg_set e) (breeding_duration e)
    (new_round e).
Definition set_egg_count (v : Z) (e : Engine) :=
  mk_engine (state e) (echoes e) (last_report e) (duration_count e)
    (bufindex e) (num_boxes e) v (egg_set e) (breeding_duration e)
    (new_round e).
Definition set_egg_set (v : Z) (e : Engine) :=
  mk_engine (state e) (echoes e) (last_report e) (duration_count e)
    (bufindex e) (num_boxes e) (egg_count e) v (breeding_duration e)
    (new_round e).
Definition set_breeding_duration (v : Z) (e : Engine) :=
  mk_engine (state e) (echoes e) (last_report e) (duration_count e)
    (bufindex e) (num_boxes e) (egg_count e) (egg_set e) v (new_round e).
Definition set_new_round (v : Z) (e : Engine) :=
  mk_engine (state e) (echoes e) (last_report e) (duration_count e)
    (bufindex e) (num_boxes e) (egg_count e) (egg_set e)
    (breeding_duration e) v.

(** [steps[i]]: undefined outside the table. *)
Definition index {A : Type} (l : list A) (i : Z) : option A :=
  if i <? 0 then None else nth_error l (Z.to_nat i).

Definition ARRAY_SIZE {A : Type} (l : list A) : Z := Z.of_nat (length l).

(** ** The report builder *)

Section ReportBuilder.
Context {JH : Joystick_h}.

(** [reset_report] (lines 144-151): [memset] to zero, then the five
    centred fields. *)
Definition reset_report (ReportData : USB_JoystickReport_Input_t)
  : USB_JoystickReport_Input_t :=
  let ReportData := mk_report 0 0 0 0 0 0 in
  let ReportData := set_LX STICK_CENTER ReportData in
  let ReportData := set_LY STICK_CENTER ReportData in
  let ReportData := set_RX STICK_CENTER ReportData in
  let ReportData := set_RY STICK_CENTER ReportData in
  set_HAT HAT_CENTER ReportData.

(** [take_action] (lines 153-239). *)
Definition take_action (a : action_t)
    (ReportData : USB_JoystickReport_Input_t) : USB_JoystickReport_Input_t :=
  match a with
  | press_a => set_Button (Z.lor (Button ReportData) SWITCH_A) ReportData
  | press_b => set_Button (Z.lor (Button ReportData) SWITCH_B) ReportData
  | press_x => set_Button (Z.lor (Button ReportData) SWITCH_X) ReportData
  | press_y => set_Button (Z.lor (Button ReportData) SWITCH_Y) ReportData
  | press_r => set_Button (Z.lor (Button ReportData) SWITCH_R) ReportData
  | press_l => set_Button (Z.lor (Button ReportData) SWITCH_L) ReportData
  | press_plus =>
      set_Button (Z.lor (Button ReportData) SWITCH_PLUS) ReportData
  | press_home =>
      set_Button (Z.lor (Button ReportData) SWITCH_HOME) ReportData
  | hang => reset_report ReportData
  | L_left => set_LX STICK_MIN ReportData
  | L_right => set_LX STICK_MAX ReportData
  | L_up => set_LY STICK_MIN ReportData
  | L_down => set_LY STICK_MAX ReportData
  | L_up_right => set_LX STICK_MAX (set_LY STICK_MIN ReportData)
  | L_up_right_slight => set_LX 200 (set_LY 60 ReportData)
  | L_left_slight => set_LX 100 ReportData
  | L_right_slight => set_LX 160 ReportData
  | L_up_slight => set_LY 100 ReportData
  | L_down_slight => set_LY 160 ReportData
  | other_action _ => reset_report ReportData
  end.

(** The neutral report: sticks and pad centred, no button. *)
Definition neutral_report : USB_JoystickReport_Input_t :=
  {| Button := 0; HAT := HAT_CENTER;
     LX := STICK_CENTER; LY := STICK_CENTER;
     RX := STICK_CENTER; RY := STICK_CENTER |}.

End ReportBuilder.

(** ** The sequence runner *)

Section Sequencer.
Context {JH : Joystick_h}.

(** The test of line 301, [bufindex > steps_size - 1]: [steps_size] is a
    [uint16_t], of the rank of [int] on the target, so both sides are
    converted to unsigned 16-bit integers. *)
Definition exhausted (steps_size bufindex : Z) : bool :=
  to_uint16 bufindex >? to_uint16 (steps_size - 1).

(** Lines 292-299 of [do_steps]: apply the action of the current step,
    count the tick, move to the next step once the count exceeds the
    step's duration. *)
Definition do_steps_advance (steps : list command_t)
    (ReportData : USB_JoystickReport_Input_t) (e : Engine)
  : option (USB_JoystickReport_Input_t * Engine) :=
  let? cmd := index steps (bufindex e) in
  let ReportData := take_action (action cmd) ReportData in
  let? dc := int_of (duration_count e + 1) in
  let e := set_duration_count dc e in
  if duration_count e >? duration cmd then
    let? bi := int_of (bufindex e + 1) in
    let e := set_bufindex bi e in
    let e := set_duration_count 0 e in
    Some (ReportData, e)
  else Some (ReportData, e).

(** Lines 301-317 of [do_steps]: past the last step, reset the cursor,
    count the egg when asked to, move to [nextState] and clear the
    report. *)
Definition do_steps_finish (steps_size : Z)
    (ReportData : USB_JoystickReport_Input_t) (nextState : State_t)
    (egg_counting : Z) (e : Engine)
  : USB_JoystickReport_Input_t * Engine :=
  if exhausted steps_size (bufindex e) then
    let e := set_bufindex 0 e in
    let e := set_duration_count 0 e in
    let e :=
      if egg_counting =? 0 then e
      else
        let e := set_egg_count (to_uint8 (egg_count e - 1)) e in
        let e := set_egg_set (to_uint8 (egg_set e + 1)) e in
        if egg_set e >=? 7 then set_egg_set 1 e else e in
    let e := set_state nextState e in
    (reset_report ReportData, e)
  else (ReportData, e).

(** [do_steps] (lines 291-318). *)
Definition do_steps (steps : list command_t) (steps_size : Z)
    (ReportData : USB_JoystickReport_Input_t) (nextState : State_t)
    (egg_counting : Z) (e : Engine)
  : option (USB_JoystickReport_Input_t * Engine) :=
  let steps_size := to_uint16 steps_size in
  let? (ReportData, e) := do_steps_advance steps ReportData e in
  Some (do_steps_finish steps_size ReportData nextState egg_counting e).

End Sequencer.

(** ** The state machine and the echo buffer *)

Definition ECHOES : Z := 2.

(** Conversion of a [double] to [int]: the fraction is dropped; the result
    is undefined when it does not fit. *)
Definition truncate (q : Q) : Z := Z.quot (Qnum q) (Z.pos (Qden q)).
Definition double_to_int (q : Q) : option Z := int_of (truncate q).

Section StateMachine.
Context {JH : Joystick_h} {SH : settings_h} {EH : egg_cycles_h}
        {TH : instructions_h} {DA : double_arith}.

(** [(1.046 * cycles) - 32.583] in [double] arithmetic (lines 343, 346):
    the two literals and the converted integer are rounded to the format,
    and so is the result of each operation. *)
Definition breeding_formula (cycles : Z) : Q :=
  fl (fl (fl (1046 # 1000) * fl (inject_Z cycles)) - fl (32583 # 1000))%Q.

(** The [switch] of [GetNextReport] (lines 336-604).  [FLY_TO_NURSERY2] has
    no case, and [DONE] returns before the report is cached, which
    [GetNextReport] below accounts for. *)
Definition states_and_moves (ReportData : USB_JoystickReport_Input_t)
    (e : Engine) : option (USB_JoystickReport_Input_t * Engine) :=
  match state e with
  | SYNC_CONTROLLER =>
      let e := set_bufindex 0 e in
      let e := set_duration_count 0 e in
      let e := set_state BREATHE e in
      let? cycles := index egg_cycles nat_dex_number in
      let? bd :=
        if flame_body =? 0
        then double_to_int (breeding_formula cycles)
        else double_to_int (breeding_formula (Z.quot cycles 2)) in
      Some (ReportData, set_breeding_duration bd e)
  | BREATHE =>
      do_steps wake_up_hang (ARRAY_SIZE wake_up_hang) ReportData
        FLY_TO_NURSERY 0 e
  | FLY_TO_NURSERY =>
      if egg_set e >? 1 then
        do_steps fly_to_breading_steps (ARRAY_SIZE fly_to_breading_steps)
          ReportData GO_TO_CIRCLE3 0 e
      else if negb (new_round e =? 0) then
        do_steps fly_to_breading_steps (ARRAY_SIZE fly_to_breading_steps)
          ReportData GO_TO_CIRCLE1 0 e
      else
        do_steps fly_to_breading_steps (ARRAY_SIZE fly_to_breading_steps)
          ReportData IN_OUT_NURSERY 0 e
  | IN_OUT_NURSERY =>
      do_steps go_in_out_nursery (ARRAY_SIZE go_in_out_nursery) ReportData
        GO_TO_CIRCLE1 0 e
  | GO_TO_CIRCLE1 =>
      if negb (new_round e =? 0) && (egg_count e >? 0) then
        do_steps go_to_circle1 (ARRAY_SIZE go_to_circle1) ReportData
          APPROACH_NPC 0 e
      else if egg_count e >? 0 then
        do_steps go_to_circle1 (ARRAY_SIZE go_to_circle1) ReportData
          CIRCLE1 0 e
      else
        let e := set_egg_set 1 e in
        let e := set_state GO_TO_CIRCLE3 e in
        Some (ReportData, e)
  | CIRCLE1 =>
      let? dc := int_of (duration_count e + 1) in
      let e := set_duration_count dc e in
      let ReportData :=
        if c_mod (duration_count e) 48 <=? 11 then
          take_action L_left ReportData
        else if c_mod (duration_count e) 48 <=? 23 then
          take_action L_down ReportData
        else if c_mod (duration_count e) 48 <=? 35 then
          take_action L_right ReportData
        else if c_mod (duration_count e) 48 <=? 47 then
          take_action L_up ReportData
        else ReportData in
      if duration_count e >? 350 then
        let e := set_duration_count 0 e in
        let e := set_bufindex 0 e in
        let e := set_state APPROACH_NPC e in
        Some (ReportData, e)
      else Some (ReportData, e)
  | APPROACH_NPC =>
      let e := set_new_round 0 e in
      do_steps approach (ARRAY_SIZE approach) ReportData SPEAK 0 e
  | SPEAK =>
      do_steps speak (ARRAY_SIZE speak) ReportData GO_TO_CIRCLE2 1 e
  | GO_TO_CIRCLE2 =>
      if egg_count e >=? 1 then
        do_steps go_to_circle2 (ARRAY_SIZE go_to_circle2) ReportData
          CIRCLE1 0 e
      else
        let e := set_egg_set 1 e in
        let e := set_state GO_TO_CIRCLE3 e in
        Some (ReportData, e)
  | GO_TO_CIRCLE3 =>
      do_steps go_to_circle3 (ARRAY_SIZE go_to_circle3) ReportData
        OPEN_BOX 0 e
  | OPEN_BOX =>
      do_steps open_box (ARRAY_SIZE open_box) ReportData SELECT_COL 0 e
  | SELECT_COL =>
      match egg_set e with
      | 1 => do_steps select_col (ARRAY_SIZE select_col) ReportData
               GRAB_EGGS1_PRE 0 e
      | 2 => do_steps select_col (ARRAY_SIZE select_col) ReportData
               GRAB_EGGS2_PRE 0 e
      | 3 => do_steps select_col (ARRAY_SIZE select_col) ReportData
               GRAB_EGGS3_PRE 0 e
      | 4 => do_steps select_col (ARRAY_SIZE select_col) ReportData
               GRAB_EGGS4_PRE 0 e
      | 5 => do_steps select_col (ARRAY_SIZE select_col) ReportData
               GRAB_EGGS5_PRE 0 e
      | 6 => do_steps select_col (ARRAY_SIZE select_col) ReportData
               GRAB_EGGS6_PRE 0 e
      | _ => Some (ReportData, e)
      end
  | GRAB_EGGS1_PRE =>
      do_steps grab_eggs1_pre (ARRAY_SIZE grab_eggs1_pre) ReportData
        SELECT_COL2 0 e
  | GRAB_EGGS2_PRE =>
      do_steps grab_eggs2_pre (ARRAY_SIZE grab_eggs2_pre) ReportData
        SELECT_COL2 0 e
  | GRAB_EGGS3_PRE =>
      do_steps grab_eggs3_pre (ARRAY_SIZE grab_eggs3_pre) ReportData
        SELECT_COL2 0 e
  | GRAB_EGGS4_PRE =>
      do_steps grab_eggs4_pre (ARRAY_SIZE grab_eggs4_pre) ReportData
        SELECT_COL2 0 e
  | GRAB_EGGS5_PRE =>
      do_steps grab_eggs5_pre (ARRAY_SIZE grab_eggs5_pre) ReportData
        SELECT_COL2 0 e
  | GRAB_EGGS6_PRE =>
      do_steps grab_eggs6_pre (ARRAY_SIZE grab_eggs6_pre) ReportData
        SELECT_COL2 0 e
  | SELECT_COL2 =>
      match egg_set e with
      | 1 => do_steps select_col (ARRAY_SIZE select_col) ReportData
               GRAB_EGGS1_POST 0 e
      | 2 => do_steps select_col (ARRAY_SIZE select_col) ReportData
               GRAB_EGGS2_POST 0 e
      | 3 => do_steps select_col (ARRAY_SIZE select_col) ReportData
               GRAB_EGGS3_POST 0 e
      | 4 => do_steps select_col (ARRAY_SIZE select_col) ReportData
               GRAB_EGGS4_POST 0 e
      | 5 => do_steps select_col (ARRAY_SIZE select_col) ReportData
               GRAB_EGGS5_POST 0 e
      | 6 => do_steps select_col (ARRAY_SIZE select_col) ReportData
               GRAB_EGGS6_POST 0 e
      | _ => Some (ReportData, e)
      end
  | GRAB_EGGS1_POST =>
      do_steps grab_eggs1_post (ARRAY_SIZE grab_eggs1_post) ReportData
        CLOSE_BOX 0 e
  | GRAB_EGGS2_POST =>
      do_steps grab_eggs2_post (ARRAY_SIZE grab_eggs2_post) ReportData
        CLOSE_BOX 0 e
  | GRAB_EGGS3_POST =>
      do_steps grab_eggs3_post (ARRAY_SIZE grab_eggs3_post) ReportData
        CLOSE_BOX 0 e
  | GRAB_EGGS4_POST =>
      do_steps grab_eggs4_post (ARRAY_SIZE grab_eggs4_post) ReportData
        CLOSE_BOX 0 e
  | GRAB_EGGS5_POST =>
      do_steps grab_eggs5_post (ARRAY_SIZE grab_eggs5_post) ReportData
        CLOSE_BOX 0 e
  | GRAB_EGGS6_POST =>
      do_steps grab_eggs6_post (ARRAY_SIZE grab_eggs6_post) ReportData
        CLOSE_BOX 0 e
  | CLOSE_BOX =>
      do_steps close_box (ARRAY_SIZE close_box) ReportData CIRCLE_CW 1 e
  | CIRCLE_CW =>
      let? dc := int_of (duration_count e + 1) in
      let e := set_duration_count dc e in
      let ReportData :=
        if c_mod (duration_count e) 48 <=? 11 then
          take_action L_right ReportData
        else if c_mod (duration_count e) 48 <=? 23 then
          take_action L_down ReportData
        else if c_mod (duration_count e) 48 <=? 35 then
          take_action L_left ReportData
        else if c_mod (duration_count e) 48 <=? 47 then
          take_action L_up ReportData
        else ReportData in
      let ReportData :=
        if (c_mod (duration_count e) 24 >=? 0)
           && (c_mod (duration_count e) 24 <=? 5)
        then take_action press_a ReportData
        else ReportData in
      let? limit := int_of (breeding_duration e + 4200) in
      if duration_count e >? limit then
        let e := set_duration_count 0 e in
        let e := set_bufindex 0 e in
        if egg_set e =? 1 then
          let e := set_egg_count (to_uint8 subsequent_egg_checks) e in
          let e := set_num_boxes (to_uint8 (num_boxes e - 1)) e in
          if (save =? 1) || ((save =? 2) && (num_boxes e <=? 0)) then
            Some (ReportData, set_state SAVE e)
          else if num_boxes e >? 0 then
            let e := set_new_round 1 e in
            Some (ReportData, set_state FLY_TO_NURSERY e)
          else Some (ReportData, set_state SLEEP e)
        else Some (ReportData, set_state FLY_TO_NURSERY e)
      else Some (ReportData, e)
  | FLY_TO_NURSERY2 => Some (ReportData, e)
  | SAVE =>
      if num_boxes e >? 0 then
        let e := set_new_round 1 e in
        do_steps save_game (ARRAY_SIZE save_game) ReportData
          FLY_TO_NURSERY 0 e
      else
        do_steps save_game (ARRAY_SIZE save_game) ReportData SLEEP 0 e
  | SLEEP => do_steps sleep (ARRAY_SIZE sleep) ReportData DONE 0 e
  | DONE => Some (ReportData, e)
  end.

(** [GetNextReport] (lines 322-615): the report handed to the host and the
    globals after the call.  [ReportData] is what the caller's buffer
    holds before the call. *)
Definition GetNextReport (ReportData : USB_JoystickReport_Input_t)
    (e : Engine) : option (USB_JoystickReport_Input_t * Engine) :=
  let ReportData := reset_report ReportData in
  if echoes e >? 0 then
    let ReportData := last_report e in
    let e := set_echoes (echoes e - 1) e in
    Some (ReportData, e)
  else
    match state e with
    | DONE => Some (ReportData, e)
    | _ =>
        let? (ReportData, e) := states_and_moves ReportData e in
        let e := set_last_report ReportData e in
        let e := set_echoes ECHOES e in
        Some (ReportData, e)
    end.

(** The globals at start-up (lines 276-289); [last_report] has static
    storage and starts zeroed. *)
Definition initial_engine : Engine :=
  {| state := SYNC_CONTROLLER;
     echoes := 0;
     last_report := mk_report 0 0 0 0 0 0;
     duration_count := 0;
     bufindex := 0;
     num_boxes := to_uint8 number_of_boxes;
     egg_count := to_uint8 initial_egg_checks;
     egg_set := 1;
     breeding_duration := 5500;
     new_round := 0 |}.

End StateMachine.

(** ** Notions the properties are stated with *)

(** The cursor of the sequence runner. *)
Definition set_cursor (b d : Z) (e : Engine) : Engine :=
  set_duration_count d (set_bufindex b e).

(** A cursor is valid in a table when it points at one of its steps and
    the ticks held do not exceed that step's duration. *)
Definition valid_cursor (steps : list command_t) (e : Engine) : Prop :=
  exists cmd, index steps (bufindex e) = Some cmd
              /\ 0 <= duration_count e <= duration cmd.

(** A table as [do_steps] can run it: at least one step, an index that
    fits an [int], and durations that the tick count can exceed. *)
Definition wf_duration (cmd : command_t) : bool :=
  (0 <=? duration cmd) && (duration cmd <? INT_MAX).

Definition wf_steps (steps : list command_t) : bool :=
  (1 <=? ARRAY_SIZE steps) && (ARRAY_SIZE steps <=? INT_MAX)
  && forallb wf_duration steps.

(** [sum(duration + 1)] over a table, and what is left of it at a
    cursor. *)
Definition total_ticks (steps : list command_t) : Z :=
  fold_right (fun cmd acc => duration cmd + 1 + acc) 0 steps.

Definition remaining_ticks (steps : list command_t) (e : Engine) : Z :=
  total_ticks (skipn (Z.to_nat (bufindex e)) steps) - duration_count e.

(** The globals after the tick that ends a sequence (lines 303-315). *)
Definition count_egg (e : Engine) : Engine :=
  let e := set_egg_count (to_uint8 (egg_count e - 1)) e in
  let e := set_egg_set (to_uint8 (egg_set e + 1)) e in
  if egg_set e >=? 7 then set_egg_set 1 e else e.

Definition completion (nextState : State_t) (egg_counting : Z)
    (e : Engine) : Engine :=
  let e := set_cursor 0 0 e in
  let e := if egg_counting =? 0 then e else count_egg e in
  set_state nextState e.

Section Runs.
Context {JH : Joystick_h}.

(** Whether the call of [do_steps] made in [e] ends the sequence: the
    test of line 301 on the cursor lines 292-299 leave. *)
Definition sequence_completed (steps : list command_t) (steps_size : Z)
    (e : Engine) : bool :=
  match do_steps_advance steps neutral_report e with
  | Some (_, e') => exhausted (to_uint16 steps_size) (bufindex e')
  | None => false
  end.

(** [n] calls of the sequence runner on one table, each on a fresh
    report, as [GetNextReport] makes them. *)
Fixpoint run_steps (n : nat) (steps : list command_t) (nextState : State_t)
    (egg_counting : Z) (e : Engine) : option Engine :=
  match n with
  | O => Some e
  | S n' =>
      let? (_, e') :=
        do_steps steps (ARRAY_SIZE steps) neutral_report nextState
          egg_counting e in
      run_steps n' steps nextState egg_counting e'
  end.

(** The claim that a run of [total_ticks] calls completes on its last
    call and only there, from the cursor of [e]. *)
Definition completes_after_total (steps : list command_t)
    (nextState : State_t) (egg_counting : Z) (e : Engine) : Prop :=
  let N := Z.to_nat (total_ticks steps) in
  (forall k e', (k < N)%nat ->
     run_steps k steps nextState egg_counting e = Some e' ->
     sequence_completed steps (ARRAY_SIZE steps) e' = (S k =? N)%nat)
  /\ exists e', run_steps N steps nextState egg_counting e = Some e'
                /\ bufindex e' = 0 /\ duration_count e' = 0.

(** Calls of [do_steps] with egg counting on, on any tables, reports and
    successor states, indexed by the number of calls that completed a
    sequence. *)
Inductive counted_runs : nat -> Engine -> Engine -> Prop :=
| counted_none : forall e, counted_runs 0 e e
| counted_tick :
    forall steps steps_size ReportData nextState egg_counting e r e1 k e2,
      egg_counting <> 0 ->
      do_steps steps steps_size ReportData nextState egg_counting e
        = Some (r, e1) ->
      sequence_completed steps steps_size e = false ->
      counted_runs k e1 e2 ->
      counted_runs k e e2
| counted_completion :
    forall steps steps_size ReportData nextState egg_counting e r e1 k e2,
      egg_counting <> 0 ->
      do_steps steps steps_size ReportData nextState egg_counting e
        = Some (r, e1) ->
      sequence_completed steps steps_size e = true ->
      counted_runs k e1 e2 ->
      counted_runs (S k) e e2.

End Runs.

(** Which fields the branch of an action assigns. *)
Definition is_reset (a : action_t) : bool :=
  match a with
  | hang | other_action _ => true
  | _ => false
  end.

Definition is_button (a : action_t) : bool :=
  match a with
  | press_a | press_b | press_x | press_y | press_r | press_l
  | press_plus | press_home => true
  | _ => false
  end.

Definition writes_LX (a : action_t) : bool :=
  match a with
  | L_left | L_right | L_up_right | L_up_right_slight
  | L_left_slight | L_right_slight => true
  | _ => false
  end.

Definition writes_LY (a : action_t) : bool :=
  match a with
  | L_up | L_down | L_up_right | L_up_right_slight
  | L_up_slight | L_down_slight => true
  | _ => false
  end.

Section ButtonMask.
Context {JH : Joystick_h}.

(** The mask a button action ORs into [Button]. *)
Definition button_mask (a : action_t) : Z :=
  match a with
  | press_a => SWITCH_A
  | press_b => SWITCH_B
  | press_x => SWITCH_X
  | press_y => SWITCH_Y
  | press_r => SWITCH_R
  | press_l => SWITCH_L
  | press_plus => SWITCH_PLUS
  | press_home => SWITCH_HOME
  | _ => 0
  end.

End ButtonMask.

Section Traces.
Context {JH : Joystick_h} {SH : settings_h} {EH : egg_cycles_h}
        {TH : instructions_h} {DA : double_arith}.

(** [n] ticks of the state machine, each on a fresh report as
    [GetNextReport] makes them when no echo is pending: the reports built
    and the globals after the last. *)
Fixpoint ticks (n : nat) (e : Engine)
  : option (list USB_JoystickReport_Input_t * Engine) :=
  match n with
  | O => Some ([], e)
  | S n' =>
      let? (r, e1) := states_and_moves neutral_report e in
      let? (rs, e2) := ticks n' e1 in
      Some (r :: rs, e2)
  end.

(** [n] calls of [GetNextReport], as [HID_Task] makes them, each on a
    buffer that holds [ReportData] before the call: the reports handed
    to the host and the globals after the last call. *)
Fixpoint calls (n : nat) (ReportData : USB_JoystickReport_Input_t)
    (e : Engine) : option (list USB_JoystickReport_Input_t * Engine) :=
  match n with
  | O => Some ([], e)
  | S n' =>
      let? (r, e1) := GetNextReport ReportData e in
      let? (rs, e2) := calls n' ReportData e1 in
      Some (r :: rs, e2)
  end.

(** The four reports of a circling state. *)
Definition stick_left : USB_JoystickReport_Input_t :=
  take_action L_left neutral_report.
Definition stick_down : USB_JoystickReport_Input_t :=
  take_action L_down neutral_report.
Definition stick_right : USB_JoystickReport_Input_t :=
  take_action L_right neutral_report.
Definition stick_up : USB_JoystickReport_Input_t :=
  take_action L_up neutral_report.

(** The report [CIRCLE1] builds when the tick count, after its
    increment, is [dc] (lines 386-397). *)
Definition circle1_report (dc : Z) : USB_JoystickReport_Input_t :=
  if c_mod dc 48 <=? 11 then stick_left
  else if c_mod dc 48 <=? 23 then stick_down
  else if c_mod dc 48 <=? 35 then stick_right
  else if c_mod dc 48 <=? 47 then stick_up
  else neutral_report.

(** The direction sequence the specification gives for the first 48 ticks
    of [CIRCLE1]. *)
Definition twelve_each : list USB_JoystickReport_Input_t :=
  repeat stick_left 12 ++ repeat stick_down 12
  ++ repeat stick_right 12 ++ repeat stick_up 12.

(** The engine makes progress from [e] when some number of calls of
    [GetNextReport] leaves the state [e] is in. *)
Definition makes_progress (ReportData : USB_JoystickReport_Input_t)
    (e : Engine) : Prop :=
  exists n rs e',
    calls n ReportData e = Some (rs, e') /\ state e' <> state e.


(** The table a state runs through [do_steps], if it runs one. *)
Definition table_of_state (s : State_t) : option (list command_t) :=
  match s with
  | SYNC_CONTROLLER | CIRCLE1 | CIRCLE_CW | FLY_TO_NURSERY2 | DONE => None
  | BREATHE => Some wake_up_hang
  | FLY_TO_NURSERY => Some fly_to_breading_steps
  | IN_OUT_NURSERY => Some go_in_out_nursery
  | GO_TO_CIRCLE1 => Some go_to_circle1
  | APPROACH_NPC => Some approach
  | SPEAK => Some speak
  | GO_TO_CIRCLE2 => Some go_to_circle2
  | GO_TO_CIRCLE3 => Some go_to_circle3
  | OPEN_BOX => Some open_box
  | SELECT_COL | SELECT_COL2 => Some select_col
  | GRAB_EGGS1_PRE => Some grab_eggs1_pre
  | GRAB_EGGS2_PRE => Some grab_eggs2_pre
  | GRAB_EGGS3_PRE => Some grab_eggs3_pre
  | GRAB_EGGS4_PRE => Some grab_eggs4_pre
  | GRAB_EGGS5_PRE => Some grab_eggs5_pre
  | GRAB_EGGS6_PRE => Some grab_eggs6_pre
  | GRAB_EGGS1_POST => Some grab_eggs1_post
  | GRAB_EGGS2_POST => Some grab_eggs2_post
  | GRAB_EGGS3_POST => Some grab_eggs3_post
  | GRAB_EGGS4_POST => Some grab_eggs4_post
  | GRAB_EGGS5_POST => Some grab_eggs5_post
  | GRAB_EGGS6_POST => Some grab_eggs6_post
  | CLOSE_BOX => Some close_box
  | SAVE => Some save_game
  | SLEEP => Some sleep
  end.

(** The headers are usable: every table can be run by [do_steps], the
    species is in the cycle table, and the duration computed from it,
    with the 4200 ticks [CIRCLE_CW] adds, stays below [INT_MAX]. *)
Definition breeding_ok (bd : Z) : bool :=
  (INT_MIN <=? bd) && (bd + 4200 <? INT_MAX).

Definition wf_headers : bool :=
  forallb wf_steps
    [wake_up_hang; fly_to_breading_steps; go_in_out_nursery;
     go_to_circle1; approach; speak; go_to_circle2; go_to_circle3;
     open_box; select_col;
     grab_eggs1_pre; grab_eggs2_pre; grab_eggs3_pre;
     grab_eggs4_pre; grab_eggs5_pre; grab_eggs6_pre;
     grab_eggs1_post; grab_eggs2_post; grab_eggs3_post;
     grab_eggs4_post; grab_eggs5_post; grab_eggs6_post;
     close_box; save_game; sleep]
  && match index egg_cycles nat_dex_number with
     | Some cycles =>
         breeding_ok
           (truncate
              (breeding_formula
                 (if flame_body =? 0 then cycles else Z.quot cycles 2)))
     | None => false
     end.

(** The invariant of the engine: [egg_set] selects one of the six
    columns, the circling threshold fits an [int], and the cursor fits
    what the current state does with it. *)
Definition cursor_ok (e : Engine) : Prop :=
  match table_of_state (state e) with
  | Some steps => valid_cursor steps e
  | None => 0 <= duration_count e < INT_MAX
  end
  /\ (state e = GO_TO_CIRCLE1 \/ state e = GO_TO_CIRCLE2 ->
      egg_count e <= 0 -> bufindex e = 0 /\ duration_count e = 0).

Definition engine_ok (e : Engine) : Prop :=
  1 <= egg_set e <= 6
  /\ breeding_ok (breeding_duration e) = true
  /\ cursor_ok e.

End Traces.


(** ** Binary floating-point rounding

    Rounding to the nearest value, ties to even, of a binary format with
    [p] bits of precision whose smallest positive value is [2^-d]: the
    [float] format is [p = 24], [d = 149], the [double] format of IEEE 754
    is [p = 53], [d = 1074].  Beyond the largest finite value of the
    format, where the format gives an infinity, the function goes on
    rounding to [p] bits. *)

Definition round_even (q : Q) : Z :=
  let f := Qfloor q in
  match Qcompare (q - inject_Z f) (1 # 2) with
  | Lt => f
  | Gt => f + 1
  | Eq => if Z.even f then f else f + 1
  end.

Definition float_round (p d : Z) (x : Q) : Q :=
  let m := (Qabs x * inject_Z (2 ^ d))%Q in
  let e := Z.log2 (Qfloor m) in
  let s := 2 ^ Z.max 0 (e - (p - 1)) in
  let r :=
    (inject_Z (round_even (m / inject_Z s) * s) / inject_Z (2 ^ d))%Q in
  match Qcompare x 0 with
  | Lt => (- r)%Q
  | _ => r
  end.

(** ** A sample configuration

    Values for the headers, used to evaluate the definitions on concrete
    inputs. *)
Module Sample.

Definition joystick : Joystick_h :=
  {| STICK_MIN := 0; STICK_CENTER := 128; STICK_MAX := 255;
     HAT_CENTER := 8;
     SWITCH_A := 4; SWITCH_B := 2; SWITCH_X := 8; SWITCH_Y := 1;
     SWITCH_R := 32; SWITCH_L := 16;
     SWITCH_PLUS := 512; SWITCH_HOME := 4096 |}.

Definition settings : settings_h :=
  {| flame_body := 0; nat_dex_number := 1; save := 2;
     number_of_boxes := 2; initial_egg_checks := 5;
     subsequent_egg_checks := 6 |}.

Definition cycles : egg_cycles_h :=
  {| egg_cycles := [5120; 6400; 10240] |}.

Definition press (a : action_t) : list command_t :=
  [mk_command a 2; mk_command hang 3].

Definition instructions : instructions_h :=
  {| wake_up_hang := [mk_command hang 10];
     fly_to_breading_steps := press press_x;
     go_in_out_nursery := press L_up;
     go_to_circle1 := press L_left;
     approach := press L_up_right;
     speak := press press_a;
     go_to_circle2 := press L_down;
     go_to_circle3 := press L_right;
     open_box := press press_x;
     select_col := press press_y;
     grab_eggs1_pre := press L_down_slight;
     grab_eggs2_pre := press L_down_slight;
     grab_eggs3_pre := press L_down_slight;
     grab_eggs4_pre := press L_down_slight;
     grab_eggs5_pre := press L_down_slight;
     grab_eggs6_pre := press L_down_slight;
     grab_eggs1_post := press L_up_slight;
     grab_eggs2_post := press L_up_slight;
     grab_eggs3_post := press L_up_slight;
     grab_eggs4_post := press L_up_slight;
     grab_eggs5_post := press L_up_slight;
     grab_eggs6_post := press L_up_slight;
     close_box := press press_b;
     save_game := press press_r;
     sleep := press press_home |}.

(** Exact arithmetic: nothing is rounded. *)
Definition exact : double_arith := {| fl := fun x => x |}.

(** The arithmetic of the target, where [double] is the 32-bit [float]
    format. *)
Definition binary32 : double_arith := {| fl := float_round 24 149 |}.

(** The settings with [flame_body] set. *)
Definition flame_settings : settings_h :=
  {| flame_body := 1; nat_dex_number := 1; save := 2;
     number_of_boxes := 2; initial_egg_checks := 5;
     subsequent_egg_checks := 6 |}.

(** A report with every field set away from neutral. *)
Definition busy_report : USB_JoystickReport_Input_t :=
  {| Button := 3; HAT := 2; LX := 10; LY := 20; RX := 30; RY := 40 |}.

(** Two steps held for two ticks each, and an engine in the middle of
    them. *)
Definition two_steps : list command_t :=
  [mk_command press_a 1; mk_command press_b 1].

Definition engine_at (s : State_t) (b d : Z) : Engine :=
  {| state := s; echoes := 0; last_report := busy_report;
     duration_count := d; bufindex := b;
     num_boxes := 2; egg_count := 5; egg_set := 1;
     breeding_duration := 5500; new_round := 0 |}.

(** An engine in a select-column state with [egg_set] out of range, and
    one with two echoes pending. *)
Definition out_of_range_engine : Engine :=
  set_egg_set 7 (engine_at SELECT_COL 0 0).

Definition echoing_engine : Engine :=
  set_echoes 2 (engine_at BREATHE 0 0).

End Sample.

(** ** Notions for the runs of the state machine *)

Section RunNotions.
Context {JH : Joystick_h} {SH : settings_h} {EH : egg_cycles_h}
        {TH : instructions_h} {DA : double_arith}.

(** The action of a step applied to a fresh report, once for each tick
    the step is still held after [held] ticks. *)
Definition step_reports (cmd : command_t) (held : Z)
  : list USB_JoystickReport_Input_t :=
  repeat (take_action (action cmd) neutral_report)
    (Z.to_nat (duration cmd + 1 - held)).

(** One applied action for each tick left from the cursor of [e] to the
    end of the table. *)
Definition pending_reports (steps : list command_t) (e : Engine)
  : list USB_JoystickReport_Input_t :=
  match index steps (bufindex e) with
  | Some cmd =>
      step_reports cmd (duration_count e)
      ++ flat_map (fun c => step_reports c 0)
           (skipn (Z.to_nat (bufindex e + 1)) steps)
  | None => []
  end.

(** The state a table state names as [nextState] in its call of
    [do_steps] (lines 350-593). *)
Definition successor (e : Engine) : State_t :=
  match state e with
  | BREATHE => FLY_TO_NURSERY
  | FLY_TO_NURSERY =>
      if egg_set e >? 1 then GO_TO_CIRCLE3
      else if negb (new_round e =? 0) then GO_TO_CIRCLE1
      else IN_OUT_NURSERY
  | IN_OUT_NURSERY => GO_TO_CIRCLE1
  | GO_TO_CIRCLE1 =>
      if negb (new_round e =? 0) && (egg_count e >? 0) then APPROACH_NPC
      else CIRCLE1
  | APPROACH_NPC => SPEAK
  | SPEAK => GO_TO_CIRCLE2
  | GO_TO_CIRCLE2 => CIRCLE1
  | GO_TO_CIRCLE3 => OPEN_BOX
  | OPEN_BOX => SELECT_COL
  | SELECT_COL =>
      match egg_set e with
      | 1 => GRAB_EGGS1_PRE
      | 2 => GRAB_EGGS2_PRE
      | 3 => GRAB_EGGS3_PRE
      | 4 => GRAB_EGGS4_PRE
      | 5 => GRAB_EGGS5_PRE
      | 6 => GRAB_EGGS6_PRE
      | _ => SELECT_COL
      end
  | GRAB_EGGS1_PRE | GRAB_EGGS2_PRE | GRAB_EGGS3_PRE
  | GRAB_EGGS4_PRE | GRAB_EGGS5_PRE | GRAB_EGGS6_PRE => SELECT_COL2
  | SELECT_COL2 =>
      match egg_set e with
      | 1 => GRAB_EGGS1_POST
      | 2 => GRAB_EGGS2_POST
      | 3 => GRAB_EGGS3_POST
      | 4 => GRAB_EGGS4_POST
      | 5 => GRAB_EGGS5_POST
      | 6 => GRAB_EGGS6_POST
      | _ => SELECT_COL2
      end
  | GRAB_EGGS1_POST | GRAB_EGGS2_POST | GRAB_EGGS3_POST
  | GRAB_EGGS4_POST | GRAB_EGGS5_POST | GRAB_EGGS6_POST => CLOSE_BOX
  | CLOSE_BOX => CIRCLE_CW
  | SAVE => if num_boxes e >? 0 then FLY_TO_NURSERY else SLEEP
  | SLEEP => DONE
  | SYNC_CONTROLLER => SYNC_CONTROLLER
  | CIRCLE1 => CIRCLE1
  | CIRCLE_CW => CIRCLE_CW
  | FLY_TO_NURSERY2 => FLY_TO_NURSERY2
  | DONE => DONE
  end.

(** The [egg_counting] argument of the state's call of [do_steps]. *)
Definition counts_egg (s : State_t) : Z :=
  match s with
  | SPEAK | CLOSE_BOX => 1
  | _ => 0
  end.

(** The globals as the state's case leaves them before it calls
    [do_steps]: [APPROACH_NPC] clears [new_round] (line 409) and [SAVE]
    sets it when boxes are left (line 584). *)
Definition prepared (e : Engine) : Engine :=
  match state e with
  | APPROACH_NPC => set_new_round 0 e
  | SAVE => if num_boxes e >? 0 then set_new_round 1 e else e
  | _ => e
  end.

(** Whether the state's case calls [do_steps] at all: the go-to-circle
    states do with eggs left to collect, the select-column states with
    [egg_set] within 1..6. *)
Definition runs_table (e : Engine) : bool :=
  match state e with
  | GO_TO_CIRCLE1 => egg_count e >? 0
  | GO_TO_CIRCLE2 => egg_count e >=? 1
  | SELECT_COL | SELECT_COL2 => (1 <=? egg_set e) && (egg_set e <=? 6)
  | _ => true
  end.

(** The report [CIRCLE_CW] builds when the tick count, after its
    increment, is [dc] (lines 536-551). *)
Definition circle_cw_report (dc : Z) : USB_JoystickReport_Input_t :=
  let ReportData :=
    if c_mod dc 48 <=? 11 then stick_right
    else if c_mod dc 48 <=? 23 then stick_down
    else if c_mod dc 48 <=? 35 then stick_left
    else if c_mod dc 48 <=? 47 then stick_up
    else neutral_report in
  if (c_mod dc 24 >=? 0) && (c_mod dc 24 <=? 5)
  then take_action press_a ReportData
  else ReportData.

(** The right stick and the pad of a report are centred. *)
Definition centred (r : USB_JoystickReport_Input_t) : Prop :=
  RX r = STICK_CENTER /\ RY r = STICK_CENTER /\ HAT r = HAT_CENTER.

(** The tables that grab the eggs of column [k], before and after the
    second selection of the column. *)
Definition grab_eggs_pre (k : Z) : list command_t :=
  match k with
  | 1 => grab_eggs1_pre
  | 2 => grab_eggs2_pre
  | 3 => grab_eggs3_pre
  | 4 => grab_eggs4_pre
  | 5 => grab_eggs5_pre
  | 6 => grab_eggs6_pre
  | _ => []
  end.

Definition grab_eggs_post (k : Z) : list command_t :=
  match k with
  | 1 => grab_eggs1_post
  | 2 => grab_eggs2_post
  | 3 => grab_eggs3_post
  | 4 => grab_eggs4_post
  | 5 => grab_eggs5_post
  | 6 => grab_eggs6_post
  | _ => []
  end.

(** The states the select-column states name as [nextState] for column
    [k] (lines 435-456 and 482-503). *)
Definition grab_pre_state (k : Z) : State_t :=
  match k with
  | 1 => GRAB_EGGS1_PRE
  | 2 => GRAB_EGGS2_PRE
  | 3 => GRAB_EGGS3_PRE
  | 4 => GRAB_EGGS4_PRE
  | 5 => GRAB_EGGS5_PRE
  | 6 => GRAB_EGGS6_PRE
  | _ => SELECT_COL
  end.

Definition grab_post_state (k : Z) : State_t :=
  match k with
  | 1 => GRAB_EGGS1_POST
  | 2 => GRAB_EGGS2_POST
  | 3 => GRAB_EGGS3_POST
  | 4 => GRAB_EGGS4_POST
  | 5 => GRAB_EGGS5_POST
  | 6 => GRAB_EGGS6_POST
  | _ => SELECT_COL2
  end.

(** The ticks a table takes from its first step. *)
Definition table_ticks (steps : list command_t) : nat :=
  Z.to_nat (total_ticks steps).

(** The reports of a table run from its first step: the action of each
    step on a fresh report for each of its ticks, but for the tick that
    ends the table, on which the report is reset. *)
Definition table_reports (steps : list command_t)
  : list USB_JoystickReport_Input_t :=
  removelast (flat_map (fun c => step_reports c 0) steps)
  ++ [neutral_report].

(** Each report three times over. *)
Definition thrice (rs : list USB_JoystickReport_Input_t)
  : list USB_JoystickReport_Input_t :=
  flat_map (fun r => [r; r; r]) rs.

End RunNotions.

(** * Properties *)

(** ** Machine integers and the error monad *)

Lemma int_of_in_range (z : Z) :
  INT_MIN <= z <= INT_MAX -> int_of z = Some z.
Proof.
  intros [Hlo Hhi]. unfold int_of.
  apply Z.leb_le in Hlo. apply Z.leb_le in Hhi.
  now rewrite Hlo, Hhi.
Qed.

Lemma index_Some {A : Type} (l : list A) (i : Z) (x : A) :
  index l i = Some x -> 0 <= i < ARRAY_SIZE l.
Proof.
  unfold index, ARRAY_SIZE. destruct (Z.ltb_spec i 0) as [|Hi]; [discriminate|].
  intros H. assert (Z.to_nat i < length l)%nat
    by (apply nth_error_Some; congruence).
  lia.
Qed.

Lemma index_in_range {A : Type} (l : list A) (i : Z) :
  0 <= i < ARRAY_SIZE l -> exists x, index l i = Some x.
Proof.
  unfold index, ARRAY_SIZE. intros [Hlo Hhi].
  destruct (Z.ltb_spec i 0) as [|_]; [lia|].
  destruct (nth_error l (Z.to_nat i)) eqn:E; [eauto|].
  apply nth_error_None in E. lia.
Qed.

(** ** The report builder *)

Section ReportBuilderFacts.
Context {JH : Joystick_h}.

Lemma reset_report_neutral (r : USB_JoystickReport_Input_t) :
  reset_report r = neutral_report.
Proof. reflexivity. Qed.

(** C8.  Applying [hang], or an action [take_action] has no case for, to
    any report gives the neutral report: sticks centred, pad centred, no
    button.  The result does not depend on the report, so the operation is
    constant and idempotent. *)
Theorem take_action_hang_neutral :
  forall (r : USB_JoystickReport_Input_t),
    reset_report r = neutral_report
    /\ take_action hang r = neutral_report
    /\ (forall code, take_action (other_action code) r = neutral_report)
    /\ Button (take_action hang r) = 0
    /\ HAT (take_action hang r) = HAT_CENTER
    /\ LX (take_action hang r) = STICK_CENTER
    /\ LY (take_action hang r) = STICK_CENTER
    /\ RX (take_action hang r) = STICK_CENTER
    /\ RY (take_action hang r) = STICK_CENTER
    /\ take_action hang (take_action hang r) = take_action hang r
    /\ (forall r', take_action hang r' = take_action hang r).
Proof.
  intros r.
  assert (Hhang : forall r0, take_action hang r0 = neutral_report)
    by (intros r0; cbn [take_action]; apply reset_report_neutral).
  split; [apply reset_report_neutral|]. split; [apply Hhang|].
  split; [intros code; cbn [take_action]; apply reset_report_neutral|].
  rewrite !Hhang. repeat split.
Qed.

(** C9.  An action that is not a reset changes only the fields its branch
    assigns: a button action ORs its mask into [Button] and nothing else;
    a stick action writes [LX] and/or [LY] and nothing else; [RX], [RY]
    and [HAT] are written by resets only. *)
Theorem take_action_frame :
  forall (a : action_t) (r : USB_JoystickReport_Input_t),
    is_reset a = false ->
    RX (take_action a r) = RX r
    /\ RY (take_action a r) = RY r
    /\ HAT (take_action a r) = HAT r
    /\ Button (take_action a r) = Z.lor (Button r) (button_mask a)
    /\ (is_button a = true ->
        LX (take_action a r) = LX r /\ LY (take_action a r) = LY r)
    /\ (is_button a = false ->
        Button (take_action a r) = Button r
        /\ (writes_LX a = true \/ writes_LY a = true))
    /\ (writes_LX a = false -> LX (take_action a r) = LX r)
    /\ (writes_LY a = false -> LY (take_action a r) = LY r).
Proof.
  intros a r Ha.
  destruct a; try discriminate Ha; cbn;
    rewrite ?Z.lor_0_r;
    repeat split; intros; try reflexivity; try discriminate; auto.
Qed.

End ReportBuilderFacts.

(** ** The sequence runner *)

Lemma wf_steps_size (steps : list command_t) :
  wf_steps steps = true -> 1 <= ARRAY_SIZE steps <= INT_MAX.
Proof.
  unfold wf_steps. rewrite !andb_true_iff.
  intros [[H1 H2] _]. apply Z.leb_le in H1. apply Z.leb_le in H2. lia.
Qed.

Lemma wf_steps_duration (steps : list command_t) (i : Z) (cmd : command_t) :
  wf_steps steps = true -> index steps i = Some cmd ->
  0 <= duration cmd < INT_MAX.
Proof.
  unfold wf_steps, index. rewrite !andb_true_iff. intros [_ Hall].
  destruct (i <? 0); [discriminate|]. intros Hnth.
  apply nth_error_In in Hnth.
  rewrite forallb_forall in Hall. specialize (Hall _ Hnth).
  unfold wf_duration in Hall. rewrite andb_true_iff in Hall.
  destruct Hall as [H1 H2]. apply Z.leb_le in H1. apply Z.ltb_lt in H2. lia.
Qed.

Lemma total_ticks_nonneg (steps : list command_t) :
  forallb wf_duration steps = true -> 0 <= total_ticks steps.
Proof.
  unfold total_ticks.
  induction steps as [|cmd steps IH]; cbn [forallb fold_right]; [lia|].
  rewrite andb_true_iff. intros [Hd Hs]. specialize (IH Hs).
  unfold wf_duration in Hd. rewrite andb_true_iff in Hd.
  destruct Hd as [Hd _]. apply Z.leb_le in Hd. lia.
Qed.

Lemma forallb_skipn {A : Type} (f : A -> bool) (n : nat) (l : list A) :
  forallb f l = true -> forallb f (skipn n l) = true.
Proof.
  revert l. induction n as [|n IH]; intros [|x l]; cbn; auto.
  rewrite andb_true_iff. intros [_ H]. auto.
Qed.

Lemma skipn_index {A : Type} (l : list A) (i : Z) (x : A) :
  index l i = Some x ->
  skipn (Z.to_nat i) l = x :: skipn (Z.to_nat (i + 1)) l.
Proof.
  unfold index. destruct (Z.ltb_spec i 0) as [|Hi]; [discriminate|].
  replace (Z.to_nat (i + 1)) with (S (Z.to_nat i)) by lia.
  generalize (Z.to_nat i) as n. intros n. revert l.
  induction n as [|n IH]; intros [|y l]; cbn; try discriminate.
  - intros [= ->]. reflexivity.
  - intros H. apply IH in H. exact H.
Qed.

Lemma total_ticks_at (steps : list command_t) (i : Z) (cmd : command_t) :
  index steps i = Some cmd ->
  total_ticks (skipn (Z.to_nat i) steps)
  = duration cmd + 1 + total_ticks (skipn (Z.to_nat (i + 1)) steps).
Proof.
  intros H. rewrite (skipn_index _ _ _ H). reflexivity.
Qed.

Lemma total_ticks_rest (steps : list command_t) (i : Z) :
  wf_steps steps = true -> 0 <= i ->
  0 <= total_ticks (skipn (Z.to_nat i) steps)
  /\ (i < ARRAY_SIZE steps -> 1 <= total_ticks (skipn (Z.to_nat i) steps))
  /\ (i = ARRAY_SIZE steps -> total_ticks (skipn (Z.to_nat i) steps) = 0).
Proof.
  intros Hwf Hi.
  assert (Hall : forallb wf_duration steps = true).
  { unfold wf_steps in Hwf. rewrite !andb_true_iff in Hwf. tauto. }
  split; [|split].
  - apply total_ticks_nonneg, forallb_skipn, Hall.
  - intros Hlt. destruct (index_in_range steps i) as [cmd Hc]; [lia|].
    rewrite (total_ticks_at _ _ _ Hc).
    pose proof (wf_steps_duration _ _ _ Hwf Hc).
    assert (0 <= total_ticks (skipn (Z.to_nat (i + 1)) steps))
      by (apply total_ticks_nonneg, forallb_skipn, Hall).
    lia.
  - intros ->. unfold ARRAY_SIZE. rewrite Nat2Z.id, skipn_all. reflexivity.
Qed.

Section SequencerFacts.
Context {JH : Joystick_h}.

Lemma exhausted_in_range (size b : Z) :
  1 <= size <= INT_MAX -> 0 <= b <= size ->
  exhausted (to_uint16 size) b = (b >? size - 1).
Proof.
  unfold exhausted, to_uint16, INT_MAX. intros Hs Hb.
  rewrite (Z.mod_small size), (Z.mod_small b), (Z.mod_small (size - 1));
    try lia.
Qed.

(** One call of [do_steps] on a valid cursor: either the cursor moves
    and nothing else changes, or the sequence ends. *)
Lemma do_steps_cases (steps : list command_t)
    (ReportData : USB_JoystickReport_Input_t) (nextState : State_t)
    (egg_counting : Z) (e : Engine) :
  wf_steps steps = true -> valid_cursor steps e ->
  (exists cmd e1,
      index steps (bufindex e) = Some cmd
      /\ do_steps steps (ARRAY_SIZE steps) ReportData nextState
           egg_counting e
         = Some (take_action (action cmd) ReportData, e1)
      /\ sequence_completed steps (ARRAY_SIZE steps) e = false
      /\ e1 = set_cursor (bufindex e1) (duration_count e1) e
      /\ (if duration_count e <? duration cmd
          then bufindex e1 = bufindex e
               /\ duration_count e1 = duration_count e + 1
          else bufindex e1 = bufindex e + 1 /\ duration_count e1 = 0)
      /\ valid_cursor steps e1
      /\ remaining_ticks steps e1 = remaining_ticks steps e - 1
      /\ 2 <= remaining_ticks steps e)
  \/ (do_steps steps (ARRAY_SIZE steps) ReportData nextState
        egg_counting e
      = Some (neutral_report, completion nextState egg_counting e)
      /\ sequence_completed steps (ARRAY_SIZE steps) e = true
      /\ remaining_ticks steps e = 1).
Proof.
  intros Hwf (cmd & Hcmd & Hdc).
  pose proof (wf_steps_size _ Hwf) as Hsize.
  pose proof (wf_steps_duration _ _ _ Hwf Hcmd) as Hdur.
  pose proof (index_Some _ _ _ Hcmd) as Hbi.
  pose proof (total_ticks_at _ _ _ Hcmd) as Htot.
  destruct (total_ticks_rest steps (bufindex e + 1) Hwf ltac:(lia))
    as (Hrest0 & Hrest1 & Hrest2).
  unfold remaining_ticks, do_steps, sequence_completed, do_steps_advance.
  rewrite Hcmd. cbn [bind].
  rewrite (int_of_in_range (duration_count e + 1))
    by (unfold INT_MIN, INT_MAX in *; lia).
  cbn [bind duration_count set_duration_count].
  destruct (duration_count e <? duration cmd) eqn:Hb;
    [apply Z.ltb_lt in Hb as Hlt | apply Z.ltb_ge in Hb as Hge].
  - (* the step is held for one more tick *)
    left. exists cmd, (set_cursor (bufindex e) (duration_count e + 1) e).
    rewrite Hb.
    destruct (Z.gtb_spec (duration_count e + 1) (duration cmd)); [lia|].
    cbn [bind]. unfold do_steps_finish.
    rewrite exhausted_in_range by (cbn; lia). cbn [bufindex set_duration_count].
    destruct (Z.gtb_spec (bufindex e) (ARRAY_SIZE steps - 1)); [lia|].
    repeat split; cbn; try lia.
    exists cmd. cbn. split; [exact Hcmd | lia].
  - destruct (Z.gtb_spec (duration_count e + 1) (duration cmd)); [|lia].
    cbn [bufindex set_duration_count].
    rewrite (int_of_in_range (bufindex e + 1))
      by (unfold INT_MIN, INT_MAX in *; lia).
    cbn [bind]. unfold do_steps_finish.
    rewrite exhausted_in_range by (cbn; lia).
    cbn [bufindex set_duration_count set_bufindex].
    destruct (Z.gtb_spec (bufindex e + 1) (ARRAY_SIZE steps - 1)) as [Hend|Hmore].
    + (* past the last step *)
      right. split; [|split].
      * unfold completion, count_egg, set_cursor.
        destruct (egg_counting =? 0); [reflexivity|].
        cbn. destruct (to_uint8 (egg_set e + 1) >=? 7); reflexivity.
      * reflexivity.
      * specialize (Hrest2 ltac:(lia)). lia.
    + (* on to the next step *)
      left. exists cmd, (set_cursor (bufindex e + 1) 0 e).
      rewrite Hb.
      destruct (index_in_range steps (bufindex e + 1)) as [cmd' Hcmd'];
        [lia|].
      pose proof (wf_steps_duration _ _ _ Hwf Hcmd').
      specialize (Hrest1 ltac:(lia)).
      repeat split; cbn; try lia.
      exists cmd'. cbn. split; [exact Hcmd' | lia].
Qed.

End SequencerFacts.

Section RunFacts.
Context {JH : Joystick_h}.

Lemma set_cursor_same (e : Engine) :
  e = set_cursor (bufindex e) (duration_count e) e.
Proof. destruct e. reflexivity. Qed.

(** A run from a valid cursor with [S n] ticks left: the first [n] calls
    only move the cursor, the call after them ends the sequence. *)
Lemma run_steps_from (steps : list command_t) (nextState : State_t)
    (egg_counting : Z) (n : nat) :
  wf_steps steps = true ->
  forall e, valid_cursor steps e ->
  remaining_ticks steps e = Z.of_nat (S n) ->
  (forall k, (k <= n)%nat ->
     exists e',
       run_steps k steps nextState egg_counting e = Some e'
       /\ e' = set_cursor (bufindex e') (duration_count e') e
       /\ valid_cursor steps e'
       /\ remaining_ticks steps e' = Z.of_nat (S n) - Z.of_nat k
       /\ sequence_completed steps (ARRAY_SIZE steps) e' = (k =? n)%nat)
  /\ run_steps (S n) steps nextState egg_counting e
     = Some (completion nextState egg_counting e).
Proof.
  intros Hwf. induction n as [|n IH]; intros e Hvalid Hrem.
  - destruct (do_steps_cases steps neutral_report nextState egg_counting e
                Hwf Hvalid)
      as [(cmd & e1 & _ & _ & _ & _ & _ & _ & _ & Hge)|(Hdo & Hc & _)];
      [lia|].
    split.
    + intros k Hk. assert (k = 0)%nat as -> by lia.
      exists e. cbn [run_steps].
      repeat split; auto using set_cursor_same; lia.
    + cbn [run_steps]. rewrite Hdo. reflexivity.
  - destruct (do_steps_cases steps neutral_report nextState egg_counting e
                Hwf Hvalid)
      as [(cmd & e1 & _ & Hdo & Hc & He1 & _ & Hv1 & Hr1 & _)|(_ & _ & H1)];
      [|lia].
    destruct (IH e1 Hv1 ltac:(lia)) as [IHk IHend].
    split.
    + intros [|k] Hk.
      * exists e. cbn [run_steps].
        repeat split; auto using set_cursor_same; lia.
      * destruct (IHk k ltac:(lia)) as (e' & Hrun & He' & Hv' & Hr' & Hc').
        exists e'. cbn [run_steps]. rewrite Hdo. cbn [bind].
        repeat split; auto; try lia.
        rewrite He1 in He'. exact He'.
    + change (run_steps (S (S n)) steps nextState egg_counting e)
        with (let? (_, e') :=
                do_steps steps (ARRAY_SIZE steps) neutral_report nextState
                  egg_counting e in
              run_steps (S n) steps nextState egg_counting e').
      rewrite Hdo. cbn [bind]. rewrite IHend, He1. reflexivity.
Qed.

Lemma remaining_ticks_pos (steps : list command_t) (e : Engine) :
  wf_steps steps = true -> valid_cursor steps e ->
  1 <= remaining_ticks steps e.
Proof.
  intros Hwf (cmd & Hcmd & Hdc). unfold remaining_ticks.
  rewrite (total_ticks_at _ _ _ Hcmd).
  pose proof (index_Some _ _ _ Hcmd).
  destruct (total_ticks_rest steps (bufindex e + 1) Hwf ltac:(lia))
    as (H0 & _). lia.
Qed.

(** C1, amended.  From a valid cursor, the sequence runner completes on
    call number [remaining_ticks], the sum of [duration + 1] over the
    steps from the cursor's step on less the ticks already held, and on
    no call before it: the calls before only move the cursor.  The
    completing call leaves the cursor at (0,0) and the state at
    [nextState].  From the cursor (0,0) that number is the sum of
    [duration + 1] over the whole table.  A step of duration 0 is left on
    the first call that executes it. *)
Theorem do_steps_completes_on_last_tick :
  forall (steps : list command_t) (nextState : State_t)
         (egg_counting : Z) (e : Engine),
    wf_steps steps = true ->
    valid_cursor steps e ->
    let N := Z.to_nat (remaining_ticks steps e) in
    (forall k, (k < N)%nat ->
       exists e',
         run_steps k steps nextState egg_counting e = Some e'
         /\ e' = set_cursor (bufindex e') (duration_count e') e
         /\ sequence_completed steps (ARRAY_SIZE steps) e'
            = (S k =? N)%nat)
    /\ run_steps N steps nextState egg_counting e
       = Some (completion nextState egg_counting e)
    /\ bufindex (completion nextState egg_counting e) = 0
    /\ duration_count (completion nextState egg_counting e) = 0
    /\ state (completion nextState egg_counting e) = nextState
    /\ (bufindex e = 0 -> duration_count e = 0 ->
        remaining_ticks steps e = total_ticks steps)
    /\ (forall cmd,
          index steps (bufindex e) = Some cmd -> duration cmd = 0 ->
          exists e1,
            run_steps 1 steps nextState egg_counting e = Some e1
            /\ (e1 = set_cursor (bufindex e + 1) 0 e
                \/ e1 = completion nextState egg_counting e)).
Proof.
  intros steps nextState egg_counting e Hwf Hvalid N.
  pose proof (remaining_ticks_pos steps e Hwf Hvalid) as Hpos.
  destruct (run_steps_from steps nextState egg_counting (pred N) Hwf e
              Hvalid ltac:(subst N; lia)) as [Hk Hend].
  replace (S (pred N)) with N in * by (subst N; lia).
  split; [|split; [|split; [|split; [|split; [|split]]]]].
  - intros k Hlt. destruct (Hk k ltac:(lia)) as (e' & H1 & H2 & _ & _ & H5).
    exists e'. repeat split; auto. rewrite H5.
    destruct N; [lia|]. reflexivity.
  - exact Hend.
  - unfold completion. destruct (egg_counting =? 0); [reflexivity|].
    unfold count_egg. cbn.
    destruct (to_uint8 (egg_set e + 1) >=? 7); reflexivity.
  - unfold completion. destruct (egg_counting =? 0); [reflexivity|].
    unfold count_egg. cbn.
    destruct (to_uint8 (egg_set e + 1) >=? 7); reflexivity.
  - reflexivity.
  - intros Hb Hd. unfold remaining_ticks. rewrite Hb, Hd.
    change (Z.to_nat 0) with 0%nat. cbn [skipn]. lia.
  - intros cmd Hcmd Hzero.
    destruct (do_steps_cases steps neutral_report nextState egg_counting e
                Hwf Hvalid)
      as [(cmd' & e1 & Hc' & Hdo & _ & He1 & Hif & _)|(Hdo & _)].
    + exists e1. cbn [run_steps]. rewrite Hdo. cbn [bind].
      split; [reflexivity|]. left.
      assert (cmd' = cmd) as -> by congruence.
      destruct Hvalid as (cmd2 & Hc2 & Hdc).
      assert (cmd2 = cmd) as -> by congruence.
      destruct (Z.ltb_spec (duration_count e) (duration cmd)); [lia|].
      destruct Hif as [Hb1 Hd1]. rewrite Hb1, Hd1 in He1. exact He1.
    + exists (completion nextState egg_counting e).
      cbn [run_steps]. rewrite Hdo. cbn [bind]. auto.
Qed.

(** The engine part of [do_steps_advance] does not depend on the report
    and leaves the egg counters alone. *)
Lemma do_steps_advance_engine (steps : list command_t)
    (R R' : USB_JoystickReport_Input_t) (e e1 : Engine) :
  do_steps_advance steps R e = Some (R', e1) ->
  (exists R0, do_steps_advance steps neutral_report e = Some (R0, e1))
  /\ egg_set e1 = egg_set e /\ egg_count e1 = egg_count e.
Proof.
  unfold do_steps_advance.
  destruct (index steps (bufindex e)) as [cmd|]; [|discriminate].
  cbn [bind].
  destruct (int_of (duration_count e + 1)) as [dc|]; [|discriminate].
  cbn [bind duration_count set_duration_count].
  destruct (dc >? duration cmd).
  - cbn [bufindex set_duration_count].
    destruct (int_of (bufindex e + 1)) as [bi|]; [|discriminate].
    cbn [bind]. intros [= _ <-]. eauto.
  - intros [= _ <-]. eauto.
Qed.

(** What one call with egg counting on does to the egg counters. *)
Lemma do_steps_eggs (steps : list command_t) (steps_size : Z)
    (R r : USB_JoystickReport_Input_t) (nextState : State_t)
    (egg_counting : Z) (e e1 : Engine) :
  egg_counting <> 0 ->
  do_steps steps steps_size R nextState egg_counting e = Some (r, e1) ->
  if sequence_completed steps steps_size e then
    egg_count e1 = to_uint8 (egg_count e - 1)
    /\ egg_set e1 = (if to_uint8 (egg_set e + 1) >=? 7 then 1
                     else to_uint8 (egg_set e + 1))
  else egg_count e1 = egg_count e /\ egg_set e1 = egg_set e.
Proof.
  intros Hec. unfold do_steps, sequence_completed.
  destruct (do_steps_advance steps R e) as [[R' e']|] eqn:Hadv;
    [|discriminate].
  destruct (do_steps_advance_engine _ _ _ _ _ Hadv)
    as ((R0 & ->) & Hset & Hcount).
  cbn [bind]. unfold do_steps_finish.
  destruct (exhausted (to_uint16 steps_size) (bufindex e')).
  - apply Z.eqb_neq in Hec. rewrite Hec. cbn.
    rewrite Hset, Hcount.
    destruct (to_uint8 (egg_set e + 1) >=? 7); intros [= _ <-]; auto.
  - intros [= _ <-]. auto.
Qed.

Lemma counted_runs_eggs (k : nat) (e e' : Engine) :
  counted_runs k e e' ->
  1 <= egg_set e <= 6 -> 0 <= egg_count e < 256 ->
  egg_set e' = (egg_set e - 1 + Z.of_nat k) mod 6 + 1
  /\ egg_count e' = to_uint8 (egg_count e - Z.of_nat k).
Proof.
  unfold to_uint8.
  induction 1 as [e
                 |steps size R nx ec e r e1 k e2 Hec Hdo Hc _ IH
                 |steps size R nx ec e r e1 k e2 Hec Hdo Hc _ IH];
    intros Hset Hcount.
  - rewrite !Z.add_0_r, Z.sub_0_r, !Z.mod_small by lia. lia.
  - pose proof (do_steps_eggs _ _ _ _ _ _ _ _ Hec Hdo) as He.
    rewrite Hc in He. destruct He as [H1 H2].
    rewrite H1, H2 in IH. auto.
  - pose proof (do_steps_eggs _ _ _ _ _ _ _ _ Hec Hdo) as He.
    rewrite Hc in He. destruct He as [H1 H2]. unfold to_uint8 in *.
    assert (Hnext : egg_set e1 = egg_set e mod 6 + 1).
    { rewrite H2. rewrite (Z.mod_small (egg_set e + 1)) by lia.
      destruct (Z.geb_spec (egg_set e + 1) 7).
      - assert (egg_set e = 6) as -> by lia. reflexivity.
      - rewrite Z.mod_small by lia. reflexivity. }
    destruct IH as [IH1 IH2].
    + rewrite Hnext. pose proof (Z.mod_pos_bound (egg_set e) 6). lia.
    + rewrite H1. apply Z.mod_pos_bound. lia.
    + rewrite IH1, IH2, Hnext, H1. split.
      * f_equal.
        replace (egg_set e mod 6 + 1 - 1 + Z.of_nat k)
          with (egg_set e mod 6 + Z.of_nat k) by lia.
        rewrite Z.add_mod_idemp_l by lia. f_equal. lia.
      * rewrite Zminus_mod_idemp_l. f_equal. lia.
Qed.

(** C6, amended.  Starting with [egg_set = 1], after six completions of
    the sequence runner with egg counting on, whatever calls lie between
    them, [egg_set] is 1 again and [egg_count] has been decremented six
    times in [uint8_t] arithmetic: it is lower by 6 when it was at least
    6, and has wrapped to 250 more than it was when it was below 6.
    After [k < 6] completions [egg_set] is [1 + k]: it stays within 1..6
    and is not back at 1 before the sixth. *)
Theorem egg_set_cycle_of_six :
  forall (e e' : Engine),
    counted_runs 6 e e' ->
    egg_set e = 1 ->
    0 <= egg_count e < 256 ->
    egg_set e' = 1
    /\ egg_count e' = to_uint8 (egg_count e - 6)
    /\ (6 <= egg_count e -> egg_count e' = egg_count e - 6)
    /\ (egg_count e < 6 -> egg_count e' = egg_count e + 250)
    /\ (forall k e'', (k < 6)%nat -> counted_runs k e e'' ->
          egg_set e'' = 1 + Z.of_nat k).
Proof.
  intros e e' Hrun Hset Hcount.
  destruct (counted_runs_eggs _ _ _ Hrun ltac:(lia) Hcount) as [H1 H2].
  rewrite Hset in H1. cbn in H1, H2.
  split; [exact H1|]. split; [exact H2|]. split; [|split].
  - intros H6. rewrite H2. unfold to_uint8. apply Z.mod_small. lia.
  - intros H6. rewrite H2. unfold to_uint8.
    symmetry. apply (Z.mod_unique_pos _ _ (-1)). all: lia.
  - intros k e'' Hk Hrun'.
    destruct (counted_runs_eggs _ _ _ Hrun' ltac:(lia) Hcount) as [H3 _].
    rewrite H3, Hset. rewrite Z.mod_small by lia. lia.
Qed.

End RunFacts.

Section SequencerExamples.
#[local] Existing Instance Sample.joystick.

Lemma take_action_frame_witness :
  is_reset press_a = false
  /\ RX (take_action press_a Sample.busy_report) = 30
  /\ Button (take_action press_a Sample.busy_report) = 7.
Proof.
  assert (H : is_reset press_a = false) by reflexivity.
  split; [exact H|].
  destruct (take_action_frame press_a Sample.busy_report H)
    as (Hrx & _ & _ & Hb & _).
  split; [exact Hrx | exact Hb].
Defined.

Lemma mid_cursor_valid :
  valid_cursor Sample.two_steps (Sample.engine_at BREATHE 1 0).
Proof. exists (mk_command press_b 1). cbn. split; [reflexivity | lia]. Qed.

(** C1 as stated fails from a valid cursor inside the table: with two
    steps of duration 1 and the cursor at (1,0), the run of
    [total_ticks = 4] calls completes on its second call, and its fourth
    call leaves the cursor at (1,0). *)
Lemma do_steps_mid_cursor_counterexample :
  valid_cursor Sample.two_steps (Sample.engine_at BREATHE 1 0)
  /\ total_ticks Sample.two_steps = 4
  /\ run_steps 4 Sample.two_steps FLY_TO_NURSERY 0
       (Sample.engine_at BREATHE 1 0)
     = Some (Sample.engine_at FLY_TO_NURSERY 1 0)
  /\ ~ completes_after_total Sample.two_steps FLY_TO_NURSERY 0
         (Sample.engine_at BREATHE 1 0).
Proof.
  split; [exact mid_cursor_valid|].
  split; [reflexivity|]. split; [reflexivity|].
  intros [Hk _].
  specialize (Hk 1%nat (Sample.engine_at BREATHE 1 1) ltac:(cbn; lia)
                eq_refl).
  vm_compute in Hk. discriminate Hk.
Qed.

Lemma do_steps_completes_on_last_tick_witness :
  wf_steps Sample.two_steps = true
  /\ valid_cursor Sample.two_steps (Sample.engine_at BREATHE 1 0)
  /\ run_steps 2 Sample.two_steps FLY_TO_NURSERY 1
       (Sample.engine_at BREATHE 1 0)
     = Some (completion FLY_TO_NURSERY 1 (Sample.engine_at BREATHE 1 0)).
Proof.
  assert (Hwf : wf_steps Sample.two_steps = true) by reflexivity.
  split; [exact Hwf|]. split; [exact mid_cursor_valid|].
  destruct (do_steps_completes_on_last_tick Sample.two_steps
              FLY_TO_NURSERY 1 (Sample.engine_at BREATHE 1 0) Hwf
              mid_cursor_valid) as (_ & Hend & _).
  exact Hend.
Defined.

(** Six calls on a table of one step of duration 0, each of which
    completes it, starting with [egg_count = 5]. *)
Lemma six_completions_from_five :
  counted_runs 6 (Sample.engine_at SPEAK 0 0)
    (set_egg_count 255 (Sample.engine_at SPEAK 0 0)).
Proof.
  pose (one := [mk_command hang 0]).
  do 6 (eapply (counted_completion one 1 neutral_report SPEAK 1);
        [discriminate | vm_compute; reflexivity | reflexivity |]).
  apply counted_none.
Defined.

(** C6 as stated fails for a starting [egg_count] below 6: from 5, six
    completions leave 255 in the [uint8_t], not 5 - 6, so [egg_count] is
    not lower by 6 for every starting value. *)
Lemma egg_count_wraps_counterexample :
  (counted_runs 6 (Sample.engine_at SPEAK 0 0)
     (set_egg_count 255 (Sample.engine_at SPEAK 0 0))
   /\ egg_set (Sample.engine_at SPEAK 0 0) = 1
   /\ egg_count (Sample.engine_at SPEAK 0 0) = 5
   /\ egg_count (set_egg_count 255 (Sample.engine_at SPEAK 0 0)) = 255)
  /\ ~ (forall e e' : Engine,
          counted_runs 6 e e' -> egg_set e = 1 ->
          0 <= egg_count e < 256 ->
          egg_count e' = egg_count e - 6).
Proof.
  split.
  - split; [exact six_completions_from_five|].
    split; [reflexivity|]. split; reflexivity.
  - intros H.
    specialize (H _ _ six_completions_from_five eq_refl
                  ltac:(cbn; lia)).
    discriminate H.
Qed.

Lemma egg_set_cycle_of_six_witness :
  exists e',
    counted_runs 6 (Sample.engine_at SPEAK 0 0) e'
    /\ egg_set e' = 1 /\ egg_count e' = 255.
Proof.
  exists (set_egg_count 255 (Sample.engine_at SPEAK 0 0)).
  split; [exact six_completions_from_five|].
  destruct (egg_set_cycle_of_six _ _ six_completions_from_five eq_refl
              ltac:(cbn; lia))
    as (H1 & H2 & _).
  split; [exact H1 | exact H2].
Defined.

End SequencerExamples.

(** ** The echo buffer *)

Section EchoFacts.
Context {JH : Joystick_h} {SH : settings_h} {EH : egg_cycles_h}
        {TH : instructions_h} {DA : double_arith}.

(** What the buffer [GetNextReport] is handed holds before a call. *)
Variable buf : USB_JoystickReport_Input_t.

Lemma GetNextReport_echo (e : Engine) :
  0 < echoes e ->
  GetNextReport buf e = Some (last_report e, set_echoes (echoes e - 1) e).
Proof.
  intros H. unfold GetNextReport.
  change (reset_report buf) with neutral_report.
  destruct (Z.gtb_spec (echoes e) 0); [reflexivity | lia].
Qed.

(** A call that finds no echo pending and is not in [DONE] caches the
    report it returns, with two echoes. *)
Lemma GetNextReport_fresh (e e1 : Engine) (r : USB_JoystickReport_Input_t) :
  echoes e <= 0 -> state e <> DONE ->
  GetNextReport buf e = Some (r, e1) ->
  last_report e1 = r /\ echoes e1 = 2.
Proof.
  intros H Hs. unfold GetNextReport.
  change (reset_report buf) with neutral_report.
  destruct (Z.gtb_spec (echoes e) 0); [lia|].
  destruct (states_and_moves neutral_report e) as [[r' e']|] eqn:Hsm.
  - destruct (state e); try congruence; cbn [bind];
      intros [= <- <-]; split; reflexivity.
  - destruct (state e); try congruence; cbn [bind]; discriminate.
Qed.

Lemma GetNextReport_done (e : Engine) :
  echoes e <= 0 -> state e = DONE ->
  GetNextReport buf e = Some (neutral_report, e).
Proof.
  intros H Hs. unfold GetNextReport.
  change (reset_report buf) with neutral_report.
  destruct (Z.gtb_spec (echoes e) 0); [lia|]. rewrite Hs. reflexivity.
Qed.

(** C4.  A call of [GetNextReport] that finds [echoes > 0] returns the
    cached [last_report] and only decrements [echoes]: no other global
    changes, so the state machine is not advanced.  Hence the two calls
    that follow a fresh tick return the report of that tick, and the
    globals the state machine works on are those the fresh tick left. *)
Theorem echo_returns_cached_report :
  forall (e : Engine),
    (0 < echoes e ->
     GetNextReport buf e = Some (last_report e, set_echoes (echoes e - 1) e)
     /\ forall r e', GetNextReport buf e = Some (r, e') ->
          r = last_report e
          /\ echoes e' = echoes e - 1
          /\ state e' = state e
          /\ bufindex e' = bufindex e
          /\ duration_count e' = duration_count e
          /\ egg_count e' = egg_count e
          /\ egg_set e' = egg_set e
          /\ num_boxes e' = num_boxes e
          /\ new_round e' = new_round e)
    /\ (echoes e <= 0 ->
        forall r0 e1, GetNextReport buf e = Some (r0, e1) ->
          exists e2 e3,
            GetNextReport buf e1 = Some (r0, e2)
            /\ GetNextReport buf e2 = Some (r0, e3)
            /\ (state e <> DONE ->
                e2 = set_echoes 1 e1 /\ e3 = set_echoes 0 e1)).
Proof.
  intros e. split.
  - intros H. pose proof (GetNextReport_echo e H) as He.
    split; [exact He|]. intros r e'. rewrite He.
    intros [= <- <-]. repeat split.
  - intros H r0 e1 Hfresh.
    assert (Hdec : {state e = DONE} + {state e <> DONE})
      by (destruct (state e); (left; reflexivity) || (right; discriminate)).
    destruct Hdec as [Hdone|Hrun].
    + rewrite (GetNextReport_done e H Hdone) in Hfresh.
      injection Hfresh as <- <-.
      exists e, e. rewrite (GetNextReport_done e H Hdone).
      repeat split; congruence.
    + destruct (GetNextReport_fresh e e1 r0 H Hrun Hfresh) as [Hl He].
      exists (set_echoes 1 e1), (set_echoes 0 e1).
      rewrite (GetNextReport_echo e1) by lia.
      rewrite (GetNextReport_echo (set_echoes 1 e1)) by (cbn; lia).
      rewrite Hl, He. repeat split.
      cbn. rewrite Hl. reflexivity.
Qed.

End EchoFacts.

(** ** The inline states of the state machine *)

Section StateMachineFacts.
Context {JH : Joystick_h} {SH : settings_h} {EH : egg_cycles_h}
        {TH : instructions_h} {DA : double_arith}.

(** What the buffer [GetNextReport] is handed holds before a call. *)
Variable buf : USB_JoystickReport_Input_t.


Lemma circle1_tick (e : Engine) :
  state e = CIRCLE1 ->
  0 <= duration_count e < INT_MAX ->
  states_and_moves neutral_report e
  = Some (circle1_report (duration_count e + 1),
          if duration_count e + 1 >? 350
          then set_state APPROACH_NPC (set_cursor 0 0 e)
          else set_duration_count (duration_count e + 1) e).
Proof.
  intros Hs Hdc. unfold states_and_moves. rewrite Hs.
  rewrite (int_of_in_range (duration_count e + 1))
    by (unfold INT_MIN; lia).
  cbn [bind duration_count set_duration_count].
  destruct (duration_count e + 1 >? 350); reflexivity.
Qed.

Lemma ticks_app (n m : nat) (e : Engine) :
  ticks (n + m) e
  = let? (rs1, e1) := ticks n e in
    let? (rs2, e2) := ticks m e1 in
    Some (rs1 ++ rs2, e2).
Proof.
  revert e. induction n as [|n IH]; intros e.
  - cbn. destruct (ticks m e) as [[rs e2]|]; reflexivity.
  - cbn [Nat.add ticks].
    destruct (states_and_moves neutral_report e) as [[r e1]|];
      [|reflexivity].
    cbn [bind]. rewrite IH.
    destruct (ticks n e1) as [[rs1 e2]|]; [|reflexivity].
    cbn [bind].
    destruct (ticks m e2) as [[rs2 e3]|]; reflexivity.
Qed.

(** While the count stays within 350, [CIRCLE1] only counts. *)
Lemma circle1_ticks (n : nat) :
  forall e,
    state e = CIRCLE1 ->
    0 <= duration_count e ->
    duration_count e + Z.of_nat n <= 350 ->
    ticks n e
    = Some (map (fun k => circle1_report (duration_count e + Z.of_nat k))
              (seq 1 n),
            set_duration_count (duration_count e + Z.of_nat n) e).
Proof.
  induction n as [|n IH]; intros e Hs Hlo Hhi.
  - cbn. rewrite Z.add_0_r. destruct e; reflexivity.
  - cbn [ticks]. rewrite (circle1_tick e Hs) by (unfold INT_MAX; lia).
    destruct (Z.gtb_spec (duration_count e + 1) 350); [lia|].
    cbn [bind].
    rewrite IH by (cbn; first [assumption | lia]).
    cbn [bind duration_count set_duration_count].
    f_equal. f_equal.
    + cbn [seq map]. f_equal.
      rewrite <- (seq_shift n 1), map_map. apply map_ext. intros k.
      f_equal. lia.
    + replace (duration_count e + 1 + Z.of_nat n)
        with (duration_count e + Z.of_nat (S n)) by lia.
      reflexivity.
Qed.

(** C5, amended.  Entered with the count at 0, [CIRCLE1] emits over its
    first 48 ticks left 11 times, then down, right and up 12 times each,
    then left again: the count is incremented before the phase is read
    off it, so the first tick is already the second of the left phase.
    The state is left on tick 351 and on no tick before, whatever the
    other globals hold. *)
Theorem circle1_phases :
  forall (e : Engine),
    state e = CIRCLE1 ->
    duration_count e = 0 ->
    ticks 48 e
    = Some (repeat stick_left 11 ++ repeat stick_down 12
            ++ repeat stick_right 12 ++ repeat stick_up 12
            ++ [stick_left],
            set_duration_count 48 e)
    /\ (forall n, (n <= 350)%nat ->
          exists rs,
            ticks n e = Some (rs, set_duration_count (Z.of_nat n) e))
    /\ (exists rs,
          ticks 351 e = Some (rs, set_state APPROACH_NPC (set_cursor 0 0 e))).
Proof.
  intros e Hs Hd. split; [|split].
  - rewrite (circle1_ticks 48 e Hs) by lia. rewrite Hd.
    f_equal.
  - intros n Hn. rewrite (circle1_ticks n e Hs) by lia. rewrite Hd.
    eexists. reflexivity.
  - change 351%nat with (350 + 1)%nat. rewrite ticks_app.
    rewrite (circle1_ticks 350 e Hs) by (rewrite Hd; cbn; lia).
    rewrite Hd.
    cbn [bind ticks].
    rewrite circle1_tick
      by (cbn; first [assumption | unfold INT_MAX; lia]).
    cbn [bind]. eexists. reflexivity.
Qed.

(** A select-column state reached with [egg_set] outside 1..6 matches no
    case: the tick changes neither the report nor the globals. *)
Lemma select_col_idle (R : USB_JoystickReport_Input_t) (e : Engine) :
  state e = SELECT_COL \/ state e = SELECT_COL2 ->
  ~ (1 <= egg_set e <= 6) ->
  states_and_moves R e = Some (R, e).
Proof.
  intros Hs Hset. unfold states_and_moves.
  destruct Hs as [-> | ->];
    destruct (egg_set e) as [|[[[]|[]|]|[[]|[]|]|]|];
    try reflexivity; lia.
Qed.

Lemma select_col_calls (n : nat) :
  forall e,
    state e = SELECT_COL \/ state e = SELECT_COL2 ->
    ~ (1 <= egg_set e <= 6) ->
    exists rs x y,
      calls n buf e = Some (rs, set_echoes x (set_last_report y e))
      /\ (echoes e <= 0 \/ last_report e = neutral_report ->
          Forall (eq neutral_report) rs).
Proof.
  induction n as [|n IH]; intros e Hs Hset.
  - exists [], (echoes e), (last_report e). cbn.
    split; [destruct e; reflexivity | constructor].
  - cbn [calls]. unfold GetNextReport.
    change (reset_report buf) with neutral_report.
    destruct (Z.gtb_spec (echoes e) 0) as [Hecho|Hfresh].
    + cbn [bind].
      destruct (IH (set_echoes (echoes e - 1) e) Hs Hset)
        as (rs & x & y & Hcalls & Hall).
      rewrite Hcalls. cbn [bind].
      exists (last_report e :: rs), x, y. split; [reflexivity|].
      intros [Hle|Hlast]; [lia|].
      constructor; [congruence|]. apply Hall. right. exact Hlast.
    + rewrite (select_col_idle _ _ Hs Hset).
      destruct (IH (set_echoes ECHOES (set_last_report neutral_report e))
                  Hs Hset) as (rs & x & y & Hcalls & Hall).
      assert (Hrun :
        (let? (r, e1) :=
           match state e with
           | DONE => Some (neutral_report, e)
           | _ =>
               let? (ReportData, e0) := Some (neutral_report, e) in
               Some (ReportData,
                     set_echoes ECHOES (set_last_report ReportData e0))
           end in
         let? (rs0, e2) := calls n buf e1 in Some (r :: rs0, e2))
        = Some (neutral_report :: rs, set_echoes x (set_last_report y e))).
      { destruct Hs as [-> | ->]; cbn [bind]; rewrite Hcalls; reflexivity. }
      rewrite Hrun.
      exists (neutral_report :: rs), x, y. split; [reflexivity|].
      intros _. constructor; [reflexivity|]. apply Hall. right. reflexivity.
Qed.

Lemma select_col_no_progress (e : Engine) :
  state e = SELECT_COL \/ state e = SELECT_COL2 ->
  ~ (1 <= egg_set e <= 6) ->
  ~ makes_progress buf e.
Proof.
  intros Hs Hset (n & rs & e' & Hcalls & Hne).
  destruct (select_col_calls n e Hs Hset) as (rs' & x & y & Hc & _).
  rewrite Hc in Hcalls. injection Hcalls as _ <-. apply Hne. reflexivity.
Qed.

(** C3, amended.  In a select-column state reached with [egg_set] outside
    1..6 the engine does not crash: every call returns, and a fresh tick
    returns the neutral report.  No branch of the dispatch is taken and
    there is no default branch: the globals other than the echo cache
    stay as they are, so the engine never leaves the state. *)
Theorem select_col_out_of_range :
  forall (e : Engine),
    state e = SELECT_COL \/ state e = SELECT_COL2 ->
    ~ (1 <= egg_set e <= 6) ->
    (forall R, states_and_moves R e = Some (R, e))
    /\ (echoes e <= 0 ->
        GetNextReport buf e
        = Some (neutral_report,
                set_echoes 2 (set_last_report neutral_report e)))
    /\ (forall n,
          exists rs x y,
            calls n buf e = Some (rs, set_echoes x (set_last_report y e))
            /\ (echoes e <= 0 -> Forall (eq neutral_report) rs))
    /\ ~ makes_progress buf e.
Proof.
  intros e Hs Hset. split; [|split; [|split]].
  - intros R. apply select_col_idle; assumption.
  - intros Hfresh. unfold GetNextReport.
    change (reset_report buf) with neutral_report.
    destruct (Z.gtb_spec (echoes e) 0); [lia|].
    rewrite (select_col_idle _ _ Hs Hset).
    destruct Hs as [-> | ->]; reflexivity.
  - intros n.
    destruct (select_col_calls n e Hs Hset) as (rs & x & y & Hc & Hall).
    exists rs, x, y. split; [exact Hc|]. intros Hle. apply Hall. auto.
  - apply select_col_no_progress; assumption.
Qed.

End StateMachineFacts.

(** ** The breeding duration *)



(** *** The rounding of a binary format is accurate *)




Section BreedingDuration.
Context {JH : Joystick_h} {SH : settings_h} {EH : egg_cycles_h}
        {TH : instructions_h} {DA : double_arith}.






Lemma sync_tick (R : USB_JoystickReport_Input_t) (e : Engine)
    (cycles : Z) :
  state e = SYNC_CONTROLLER ->
  index egg_cycles nat_dex_number = Some cycles ->
  let c := if flame_body =? 0 then cycles else Z.quot cycles 2 in
  INT_MIN <= truncate (breeding_formula c) <= INT_MAX ->
  states_and_moves R e
  = Some (R, set_breeding_duration (truncate (breeding_formula c))
               (set_state BREATHE (set_cursor 0 0 e))).
Proof.
  intros Hs Hc c Hrange. unfold states_and_moves. rewrite Hs, Hc.
  cbn [bind]. unfold double_to_int. subst c.
  destruct (flame_body =? 0); rewrite int_of_in_range by exact Hrange;
    reflexivity.
Qed.


End BreedingDuration.

(** ** The invariant of the engine *)

Section Invariant.
Context {JH : Joystick_h} {SH : settings_h} {EH : egg_cycles_h}
        {TH : instructions_h} {DA : double_arith}.

(** What the buffer [GetNextReport] is handed holds before a call. *)
Variable buf : USB_JoystickReport_Input_t.

Lemma next_egg_set_in_range (k : Z) :
  1 <= k <= 6 ->
  1 <= (if to_uint8 (k + 1) >=? 7 then 1 else to_uint8 (k + 1)) <= 6.
Proof.
  intros Hk. unfold to_uint8. rewrite Z.mod_small by lia.
  destruct (Z.geb_spec (k + 1) 7); lia.
Qed.

(** A call of [do_steps] that returns keeps [egg_set] within 1..6. *)
Lemma do_steps_egg_set (steps : list command_t) (steps_size : Z)
    (R r : USB_JoystickReport_Input_t) (nextState : State_t)
    (egg_counting : Z) (e e1 : Engine) :
  do_steps steps steps_size R nextState egg_counting e = Some (r, e1) ->
  1 <= egg_set e <= 6 -> 1 <= egg_set e1 <= 6.
Proof.
  unfold do_steps.
  destruct (do_steps_advance steps R e) as [[R' e']|] eqn:Hadv;
    [|discriminate].
  destruct (do_steps_advance_engine _ _ _ _ _ Hadv) as (_ & Hset & _).
  cbn [bind]. unfold do_steps_finish.
  destruct (exhausted (to_uint16 steps_size) (bufindex e')).
  - destruct (egg_counting =? 0).
    + intros [= _ <-]. cbn. lia.
    + cbn. intros H Hr. rewrite <- Hset in Hr.
      pose proof (next_egg_set_in_range _ Hr) as Hn.
      destruct (to_uint8 (egg_set e' + 1) >=? 7);
        injection H as _ <-; cbn; lia.
  - intros [= _ <-]. lia.
Qed.

Ltac crack H :=
  repeat match type of H with
    | context [match ?x with _ => _ end] => destruct x eqn:?
    end.

(** A tick that returns keeps [egg_set] within 1..6. *)
Lemma states_and_moves_egg_set (R r : USB_JoystickReport_Input_t)
    (e e1 : Engine) :
  states_and_moves R e = Some (r, e1) ->
  1 <= egg_set e <= 6 -> 1 <= egg_set e1 <= 6.
Proof.
  intros H Hr. unfold states_and_moves, bind in H.
  destruct (state e); crack H;
    first
      [ discriminate H
      | injection H as _ <-; cbn; lia
      | eapply do_steps_egg_set; [exact H | cbn; lia] ].
Qed.

Lemma GetNextReport_egg_set (r : USB_JoystickReport_Input_t)
    (e e1 : Engine) :
  GetNextReport buf e = Some (r, e1) ->
  1 <= egg_set e <= 6 -> 1 <= egg_set e1 <= 6.
Proof.
  unfold GetNextReport.
  change (reset_report buf) with neutral_report.
  intros H Hr.
  destruct (echoes e >? 0).
  - injection H as _ <-. exact Hr.
  - destruct (states_and_moves neutral_report e) as [[r' e']|] eqn:Htick.
    + pose proof (states_and_moves_egg_set _ _ _ _ Htick Hr) as Hr'.
      destruct (state e); cbn [bind] in H; injection H as _ <-;
        first [exact Hr | exact Hr'].
    + destruct (state e); cbn [bind] in H;
        first [discriminate H | injection H as _ <-; exact Hr].
Qed.

Lemma wf_headers_tables (s : State_t) (steps : list command_t) :
  wf_headers = true -> table_of_state s = Some steps ->
  wf_steps steps = true.
Proof.
  unfold wf_headers. rewrite andb_true_iff. intros [Hall _].
  cbn [forallb] in Hall. rewrite !andb_true_iff in Hall.
  destruct s; cbn; intros [= <-]; tauto.
Qed.

Lemma wf_headers_breeding :
  wf_headers = true ->
  exists cycles,
    index egg_cycles nat_dex_number = Some cycles
    /\ breeding_ok
         (truncate
            (breeding_formula
               (if flame_body =? 0 then cycles else Z.quot cycles 2)))
       = true.
Proof.
  unfold wf_headers. rewrite andb_true_iff. intros [_ H].
  destruct (index egg_cycles nat_dex_number) as [cycles|];
    [|discriminate].
  exists cycles. auto.
Qed.

Lemma breeding_ok_range (bd : Z) :
  breeding_ok bd = true -> INT_MIN <= bd /\ bd + 4200 < INT_MAX.
Proof.
  unfold breeding_ok. rewrite andb_true_iff.
  intros [H1 H2]. apply Z.leb_le in H1. apply Z.ltb_lt in H2. auto.
Qed.

Lemma valid_cursor_start (steps : list command_t) (e : Engine) :
  wf_steps steps = true -> bufindex e = 0 -> duration_count e = 0 ->
  valid_cursor steps e.
Proof.
  intros Hwf Hb Hd. pose proof (wf_steps_size _ Hwf) as Hsize.
  destruct (index_in_range steps 0) as [cmd Hcmd]; [lia|].
  pose proof (wf_steps_duration _ _ _ Hwf Hcmd).
  exists cmd. rewrite Hb, Hd. split; [exact Hcmd | lia].
Qed.

(** Any state can be entered with the cursor at (0,0). *)
Lemma engine_ok_enter (e : Engine) :
  wf_headers = true ->
  1 <= egg_set e <= 6 ->
  breeding_ok (breeding_duration e) = true ->
  bufindex e = 0 -> duration_count e = 0 ->
  engine_ok e.
Proof.
  intros Hwf Hset Hbd Hb Hd. split; [exact Hset|]. split; [exact Hbd|].
  split; [|auto].
  destruct (table_of_state (state e)) as [steps|] eqn:Ht.
  - apply valid_cursor_start; auto.
    eapply wf_headers_tables; eauto.
  - rewrite Hd. unfold INT_MAX. lia.
Qed.

(** A call of [do_steps] on the table of the current state keeps the
    invariant. *)
Lemma do_steps_ok (steps : list command_t)
    (R : USB_JoystickReport_Input_t) (nextState : State_t)
    (egg_counting : Z) (e : Engine) :
  wf_headers = true ->
  engine_ok e ->
  table_of_state (state e) = Some steps ->
  (state e = GO_TO_CIRCLE1 \/ state e = GO_TO_CIRCLE2 -> 0 < egg_count e) ->
  exists r e',
    do_steps steps (ARRAY_SIZE steps) R nextState egg_counting e
    = Some (r, e')
    /\ engine_ok e'.
Proof.
  intros Hwf (Hset & Hbd & Hcur & Hgo) Ht Hegg.
  pose proof (wf_headers_tables _ _ Hwf Ht) as Hsteps.
  unfold cursor_ok in *. rewrite Ht in Hcur.
  destruct (do_steps_cases steps R nextState egg_counting e Hsteps Hcur)
    as [(cmd & e1 & _ & Hdo & _ & He1 & _ & Hv1 & _)|(Hdo & _)].
  - exists (take_action (action cmd) R), e1. split; [exact Hdo|].
    assert (Hst : state e1 = state e) by (rewrite He1; reflexivity).
    assert (Hes : egg_set e1 = egg_set e) by (rewrite He1; reflexivity).
    assert (Hec : egg_count e1 = egg_count e) by (rewrite He1; reflexivity).
    assert (Hb1 : breeding_duration e1 = breeding_duration e)
      by (rewrite He1; reflexivity).
    split; [lia|]. split; [congruence|]. split.
    + rewrite Hst, Ht. exact Hv1.
    + rewrite Hst, Hec. intros Hs Hle. specialize (Hegg Hs). lia.
  - exists neutral_report, (completion nextState egg_counting e).
    split; [exact Hdo|].
    apply engine_ok_enter; auto.
    + unfold completion. destruct (egg_counting =? 0); [exact Hset|].
      unfold count_egg. cbn.
      pose proof (next_egg_set_in_range _ Hset).
      destruct (to_uint8 (egg_set e + 1) >=? 7); cbn; lia.
    + unfold completion. destruct (egg_counting =? 0); [exact Hbd|].
      unfold count_egg. cbn.
      destruct (to_uint8 (egg_set e + 1) >=? 7); exact Hbd.
    + unfold completion. destruct (egg_counting =? 0); [reflexivity|].
      unfold count_egg. cbn.
      destruct (to_uint8 (egg_set e + 1) >=? 7); reflexivity.
    + unfold completion. destruct (egg_counting =? 0); [reflexivity|].
      unfold count_egg. cbn.
      destruct (to_uint8 (egg_set e + 1) >=? 7); reflexivity.
Qed.

Lemma engine_ok_counting (e : Engine) (dc : Z) :
  engine_ok e -> table_of_state (state e) = None ->
  0 <= dc < INT_MAX ->
  engine_ok (set_duration_count dc e).
Proof.
  intros (Hset & Hbd & Hcur & Hgo) Ht Hdc.
  split; [exact Hset|]. split; [exact Hbd|].
  unfold cursor_ok. cbn [state set_duration_count]. rewrite Ht.
  split; [exact Hdc|].
  intros [Hs|Hs]; rewrite Hs in Ht; discriminate Ht.
Qed.

Lemma circle_cw_tick_ok (R : USB_JoystickReport_Input_t) (e : Engine) :
  wf_headers = true -> engine_ok e -> state e = CIRCLE_CW ->
  exists r e', states_and_moves R e = Some (r, e') /\ engine_ok e'.
Proof.
  intros Hwf Hok Hs.
  pose proof Hok as (Hset & Hbd & Hcur & _).
  unfold cursor_ok in Hcur. rewrite Hs in Hcur. cbn in Hcur.
  pose proof (breeding_ok_range _ Hbd) as Hrange.
  unfold states_and_moves. rewrite Hs.
  rewrite (int_of_in_range (duration_count e + 1))
    by (unfold INT_MIN, INT_MAX in *; lia).
  cbn [bind duration_count set_duration_count breeding_duration].
  rewrite (int_of_in_range (breeding_duration e + 4200))
    by (unfold INT_MIN, INT_MAX in *; lia).
  cbn [bind].
  destruct (Z.gtb_spec (duration_count e + 1) (breeding_duration e + 4200)).
  - cbn [egg_set set_bufindex set_duration_count].
    destruct (egg_set e =? 1).
    + cbn [num_boxes set_num_boxes set_egg_count set_bufindex
           set_duration_count].
      destruct ((save =? 1)
                || (save =? 2) && (to_uint8 (num_boxes e - 1) <=? 0));
        [|destruct (to_uint8 (num_boxes e - 1) >? 0)];
        (do 2 eexists; split; [reflexivity|];
         apply engine_ok_enter; auto).
    + do 2 eexists. split; [reflexivity|]. apply engine_ok_enter; auto.
  - do 2 eexists. split; [reflexivity|].
    apply engine_ok_counting; [exact Hok | rewrite Hs; reflexivity | lia].
Qed.

Ltac run_table Hwf Hok Hs :=
  match goal with
  | |- exists r e', do_steps ?steps _ ?R ?nx ?ec ?e0 = Some (r, e') /\ _ =>
      apply (do_steps_ok steps R nx ec e0 Hwf);
      [ exact Hok
      | cbn; rewrite Hs; reflexivity
      | cbn; rewrite Hs; intros [?|?]; first [discriminate | lia] ]
  end.

(** A tick from an engine that satisfies the invariant returns, and the
    invariant holds after it. *)
Lemma states_and_moves_ok (e : Engine) :
  wf_headers = true -> engine_ok e ->
  exists r e',
    states_and_moves neutral_report e = Some (r, e') /\ engine_ok e'.
Proof.
  intros Hwf Hok.
  pose proof Hok as (Hset & Hbd & Hcur & Hgo).
  destruct (state e) eqn:Hs;
    try (unfold states_and_moves; rewrite Hs; run_table Hwf Hok Hs).
  - (* SYNC_CONTROLLER *)
    destruct (wf_headers_breeding Hwf) as (cycles & Hc & Hb).
    pose proof (breeding_ok_range _ Hb) as Hr.
    rewrite (sync_tick neutral_report e cycles Hs Hc)
      by (unfold INT_MIN, INT_MAX in *; lia).
    do 2 eexists. split; [reflexivity|]. apply engine_ok_enter; auto.
  - (* FLY_TO_NURSERY *)
    unfold states_and_moves. rewrite Hs.
    destruct (egg_set e >? 1); [|destruct (negb (new_round e =? 0))];
      run_table Hwf Hok Hs.
  - (* GO_TO_CIRCLE1 *)
    unfold states_and_moves. rewrite Hs.
    destruct (Z.gtb_spec (egg_count e) 0) as [Hpos|Hzero].
    + destruct (negb (new_round e =? 0)); cbn [andb];
        run_table Hwf Hok Hs.
    + rewrite andb_false_r.
      do 2 eexists. split; [reflexivity|].
      destruct (Hgo ltac:(auto) Hzero) as [Hb0 Hd0].
      apply engine_ok_enter; auto. cbn. lia.
  - (* CIRCLE1 *)
    cbn in Hcur.
    rewrite (circle1_tick e Hs Hcur).
    do 2 eexists. split; [reflexivity|].
    destruct (Z.gtb_spec (duration_count e + 1) 350).
    + apply engine_ok_enter; auto.
    + apply engine_ok_counting;
        [exact Hok | rewrite Hs; reflexivity | unfold INT_MAX; lia].
  - (* GO_TO_CIRCLE2 *)
    unfold states_and_moves. rewrite Hs.
    destruct (Z.geb_spec (egg_count e) 1) as [Hpos|Hzero].
    + run_table Hwf Hok Hs.
    + do 2 eexists. split; [reflexivity|].
      destruct (Hgo ltac:(auto) ltac:(lia)) as [Hb0 Hd0].
      apply engine_ok_enter; auto. cbn. lia.
  - (* SELECT_COL *)
    unfold states_and_moves. rewrite Hs.
    destruct (egg_set e) as [|[[[]|[]|]|[[]|[]|]|]|];
      first [run_table Hwf Hok Hs | lia].
  - (* SELECT_COL2 *)
    unfold states_and_moves. rewrite Hs.
    destruct (egg_set e) as [|[[[]|[]|]|[[]|[]|]|]|];
      first [run_table Hwf Hok Hs | lia].
  - (* CIRCLE_CW *)
    apply circle_cw_tick_ok; assumption.
  - (* FLY_TO_NURSERY2 *)
    unfold states_and_moves. rewrite Hs. eauto.
  - (* SAVE *)
    unfold states_and_moves. rewrite Hs.
    destruct (num_boxes e >? 0); run_table Hwf Hok Hs.
  - (* DONE *)
    unfold states_and_moves. rewrite Hs. eauto.
Qed.

Lemma GetNextReport_ok (e : Engine) :
  wf_headers = true -> engine_ok e ->
  exists r e', GetNextReport buf e = Some (r, e') /\ engine_ok e'.
Proof.
  intros Hwf Hok. unfold GetNextReport.
  change (reset_report buf) with neutral_report.
  destruct (echoes e >? 0).
  - do 2 eexists. split; [reflexivity | exact Hok].
  - destruct (states_and_moves_ok e Hwf Hok) as (r & e' & Htick & Hok').
    rewrite Htick. cbn [bind].
    destruct (state e); do 2 eexists;
      (split; [reflexivity | first [exact Hok' | exact Hok]]).
Qed.

Lemma initial_engine_ok : wf_headers = true -> engine_ok initial_engine.
Proof.
  intros Hwf. apply engine_ok_enter; auto; cbn; lia.
Qed.

Lemma calls_ok (n : nat) :
  wf_headers = true ->
  forall e, engine_ok e ->
  exists rs e', calls n buf e = Some (rs, e') /\ engine_ok e'.
Proof.
  intros Hwf. induction n as [|n IHn]; intros e Hok.
  - exists [], e. auto.
  - destruct (GetNextReport_ok e Hwf Hok) as (r & e1 & Hcall & Hok1).
    destruct (IHn e1 Hok1) as (rs & e2 & Hcalls & Hok2).
    exists (r :: rs), e2. cbn [calls]. rewrite Hcall. cbn [bind].
    rewrite Hcalls. auto.
Qed.

(** C10.  With headers the engine can run on, every number of calls of
    [GetNextReport] from the initial globals returns, and [egg_set] is
    within 1..6 after them; and a call of [GetNextReport] that returns,
    from any globals with [egg_set] within 1..6, leaves it within 1..6.
    So the select-column dispatches are reached with [egg_set] in
    range. *)
Theorem egg_set_stays_in_range :
  (wf_headers = true ->
   forall n,
     exists rs e,
       calls n buf initial_engine = Some (rs, e) /\ 1 <= egg_set e <= 6)
  /\ (forall e r e',
        1 <= egg_set e <= 6 ->
        GetNextReport buf e = Some (r, e') ->
        1 <= egg_set e' <= 6).
Proof.
  split.
  - intros Hwf n.
    destruct (calls_ok n Hwf initial_engine (initial_engine_ok Hwf))
      as (rs & e & Hcalls & Hset & _).
    exists rs, e. auto.
  - intros e r e' Hset Hcall.
    eapply GetNextReport_egg_set; eauto.
Qed.

End Invariant.

(** ** The properties on the sample configuration *)

Section StateMachineExamples.
#[local] Existing Instance Sample.joystick.
#[local] Existing Instance Sample.settings.
#[local] Existing Instance Sample.cycles.
#[local] Existing Instance Sample.instructions.
#[local] Existing Instance Sample.exact.


(** C3 as stated fails in [SELECT_COL] with [egg_set = 7]: the tick
    leaves the globals as they are, so the state machine is not reset to
    [SYNC_CONTROLLER], and no number of calls leaves the state. *)
Lemma select_col_no_resync_counterexample :
  states_and_moves neutral_report Sample.out_of_range_engine
  = Some (neutral_report, Sample.out_of_range_engine)
  /\ state Sample.out_of_range_engine <> SYNC_CONTROLLER
  /\ ~ makes_progress Sample.busy_report Sample.out_of_range_engine.
Proof.
  split; [reflexivity|]. split; [discriminate|].
  apply select_col_no_progress; [left; reflexivity | cbn; lia].
Qed.

Lemma select_col_out_of_range_witness :
  GetNextReport Sample.busy_report Sample.out_of_range_engine
  = Some (neutral_report,
          set_echoes 2
            (set_last_report neutral_report Sample.out_of_range_engine))
  /\ ~ makes_progress Sample.busy_report Sample.out_of_range_engine.
Proof.
  destruct (select_col_out_of_range Sample.busy_report
              Sample.out_of_range_engine
              (or_introl eq_refl) ltac:(cbn; lia))
    as (_ & Hfresh & _ & Hstuck).
  split; [apply Hfresh; cbn; lia | exact Hstuck].
Defined.

Lemma echo_returns_cached_report_witness :
  GetNextReport Sample.busy_report Sample.echoing_engine
  = Some (Sample.busy_report, set_echoes 1 Sample.echoing_engine).
Proof.
  destruct (echo_returns_cached_report Sample.busy_report
              Sample.echoing_engine)
    as [Hecho _].
  destruct (Hecho ltac:(cbn; lia)) as [Hcall _]. exact Hcall.
Defined.

(** C5 as stated fails: from a fresh entry the twelfth tick of [CIRCLE1]
    already emits down, so the first 48 reports are not twelve of each
    direction. *)
Lemma circle1_twelve_left_counterexample :
  exists rs e',
    ticks 48 (Sample.engine_at CIRCLE1 0 0) = Some (rs, e')
    /\ nth_error rs 11 = Some stick_down
    /\ nth_error twelve_each 11 = Some stick_left
    /\ stick_down <> stick_left
    /\ rs <> twelve_each.
Proof.
  do 2 eexists. split; [vm_compute; reflexivity|].
  split; [reflexivity|]. split; [reflexivity|].
  split; [discriminate|].
  intros H. apply (f_equal (fun l => nth_error l 11)) in H.
  vm_compute in H. discriminate H.
Qed.

Lemma circle1_phases_witness :
  exists rs,
    ticks 351 (Sample.engine_at CIRCLE1 0 0)
    = Some (rs, Sample.engine_at APPROACH_NPC 0 0).
Proof.
  destruct (circle1_phases (Sample.engine_at CIRCLE1 0 0) eq_refl eq_refl)
    as (_ & _ & Hend).
  exact Hend.
Defined.

Lemma egg_set_stays_in_range_witness :
  wf_headers = true
  /\ exists rs e,
       calls 9 Sample.busy_report initial_engine = Some (rs, e) /\ 1 <= egg_set e <= 6.
Proof.
  assert (Hwf : wf_headers = true) by reflexivity.
  split; [exact Hwf|].
  destruct (egg_set_stays_in_range Sample.busy_report) as [Hrun _].
  exact (Hrun Hwf 9%nat).
Defined.

End StateMachineExamples.

(** The sync tick with the arithmetic of the [float] format (24 bits of
    precision, least exponent -149), to which avr-gcc maps [double]. *)
Section BreedingExamples.
#[local] Existing Instance Sample.joystick.
#[local] Existing Instance Sample.cycles.
#[local] Existing Instance Sample.instructions.
#[local] Existing Instance Sample.binary32.


Section FlagUnset.
#[local] Existing Instance Sample.settings.


(** The same tick evaluated: 6661 is stored. *)
Example sync_tick_flag_unset :
  option_map (fun re => breeding_duration (snd re))
    (states_and_moves neutral_report (Sample.engine_at SYNC_CONTROLLER 0 0))
  = Some 6661.
Proof. vm_compute. reflexivity. Qed.

End FlagUnset.

Section FlagSet.
#[local] Existing Instance Sample.flame_settings.

(** With [flame_body] set the table value is halved first: 3314 is
    stored. *)
Example sync_tick_flag_set :
  option_map (fun re => breeding_duration (snd re))
    (states_and_moves neutral_report (Sample.engine_at SYNC_CONTROLLER 0 0))
  = Some 3314.
Proof. vm_compute. reflexivity. Qed.

End FlagSet.

End BreedingExamples.

(** * Further properties of the code *)

(** ** Composition of actions *)

Section ActionComposition.
Context {JH : Joystick_h}.

(** X1.  Every action is idempotent: applying it a second time to the
    report it has just been applied to changes nothing (a button is
    ORed in once, a stick write is repeated, a reset is a reset). *)
Theorem take_action_idempotent :
  forall (a : action_t) (r : USB_JoystickReport_Input_t),
    take_action a (take_action a r) = take_action a r.
Proof.
  intros a r.
  destruct a; cbn; try reflexivity;
    unfold set_Button; cbn; f_equal;
    rewrite <- Z.lor_assoc, Z.lor_diag; reflexivity.
Qed.

(** X2.  Two actions that are not resets and do not write the same stick
    axis commute: in particular a button action commutes with every
    other button action and with every stick action. *)
Theorem take_action_commute :
  forall (a b : action_t) (r : USB_JoystickReport_Input_t),
    is_reset a = false -> is_reset b = false ->
    writes_LX a && writes_LX b = false ->
    writes_LY a && writes_LY b = false ->
    take_action a (take_action b r) = take_action b (take_action a r).
Proof.
  intros a b r Ha Hb Hx Hy.
  destruct a; try discriminate Ha;
    destruct b; try discriminate Hb;
    try discriminate Hx; try discriminate Hy;
    cbn; try reflexivity;
    unfold set_Button; cbn; f_equal;
    rewrite <- !Z.lor_assoc; f_equal; apply Z.lor_comm.
Qed.

End ActionComposition.

(** ** What one call of the sequence runner may change *)

Section SequencerFrame.
Context {JH : Joystick_h}.

Lemma do_steps_advance_cursor (steps : list command_t)
    (R R' : USB_JoystickReport_Input_t) (e e1 : Engine) :
  do_steps_advance steps R e = Some (R', e1) ->
  e1 = set_cursor (bufindex e1) (duration_count e1) e
  /\ exists cmd, index steps (bufindex e) = Some cmd
                 /\ R' = take_action (action cmd) R.
Proof.
  unfold do_steps_advance.
  destruct (index steps (bufindex e)) as [cmd|]; [|discriminate].
  cbn [bind].
  destruct (int_of (duration_count e + 1)) as [dc|]; [|discriminate].
  cbn [bind duration_count bufindex set_duration_count].
  destruct (dc >? duration cmd).
  - destruct (int_of (bufindex e + 1)) as [bi|]; [|discriminate].
    cbn [bind]. intros [= <- <-]. split; [reflexivity | eauto].
  - intros [= <- <-]. split; [reflexivity | eauto].
Qed.

Lemma do_steps_frame_aux (steps : list command_t) (steps_size : Z)
    (R r : USB_JoystickReport_Input_t) (nextState : State_t)
    (egg_counting : Z) (e e' : Engine) :
  do_steps steps steps_size R nextState egg_counting e = Some (r, e') ->
  echoes e' = echoes e
  /\ last_report e' = last_report e
  /\ num_boxes e' = num_boxes e
  /\ new_round e' = new_round e
  /\ breeding_duration e' = breeding_duration e
  /\ (state e' = state e \/ state e' = nextState)
  /\ (egg_counting = 0 ->
      egg_count e' = egg_count e /\ egg_set e' = egg_set e)
  /\ (r = neutral_report
      \/ exists cmd, index steps (bufindex e) = Some cmd
                     /\ r = take_action (action cmd) R).
Proof.
  unfold do_steps.
  destruct (do_steps_advance steps R e) as [[R' e1]|] eqn:Hadv;
    [|discriminate].
  destruct (do_steps_advance_cursor _ _ _ _ _ Hadv) as (He1 & Hcmd).
  cbn [bind]. unfold do_steps_finish.
  destruct (exhausted (to_uint16 steps_size) (bufindex e1)).
  - destruct (Z.eqb_spec egg_counting 0) as [Hz|Hnz].
    + intros [= <- <-]. rewrite He1. cbn. repeat split; auto.
    + cbn. destruct (to_uint8 (egg_set e1 + 1) >=? 7);
        intros [= <- <-]; rewrite He1; cbn;
        repeat split; auto; intros; contradiction.
  - intros [= <- <-]. rewrite He1. cbn. repeat split; auto.
Qed.

(** X3.  A call of [do_steps] that returns writes, of the globals, only
    the cursor, the state and the egg counters: the echo cache,
    [num_boxes], [new_round] and [breeding_duration] are left alone; the
    state stays or becomes [nextState]; without egg counting the egg
    counters are left alone too.  The report is the neutral report or
    the current step's action applied to the report passed in. *)
Theorem do_steps_frame :
  forall (steps : list command_t) (steps_size : Z)
         (R r : USB_JoystickReport_Input_t) (nextState : State_t)
         (egg_counting : Z) (e e' : Engine),
    do_steps steps steps_size R nextState egg_counting e = Some (r, e') ->
    echoes e' = echoes e
    /\ last_report e' = last_report e
    /\ num_boxes e' = num_boxes e
    /\ new_round e' = new_round e
    /\ breeding_duration e' = breeding_duration e
    /\ (state e' = state e \/ state e' = nextState)
    /\ (egg_counting = 0 ->
        egg_count e' = egg_count e /\ egg_set e' = egg_set e)
    /\ (r = neutral_report
        \/ exists cmd, index steps (bufindex e) = Some cmd
                       /\ r = take_action (action cmd) R).
Proof.
  intros. eapply do_steps_frame_aux; eassumption.
Qed.

End SequencerFrame.

(** ** Runs of the table states *)

Section TableRuns.
Context {JH : Joystick_h} {SH : settings_h} {EH : egg_cycles_h}
        {TH : instructions_h} {DA : double_arith}.

Lemma step_reports_total (l : list command_t) :
  forallb wf_duration l = true ->
  Z.of_nat (length (flat_map (fun c => step_reports c 0) l))
  = total_ticks l.
Proof.
  unfold total_ticks.
  induction l as [|cmd l IHl]; cbn [forallb flat_map fold_right];
    [reflexivity|].
  rewrite andb_true_iff. intros [Hd Hl].
  unfold wf_duration in Hd. rewrite andb_true_iff in Hd.
  destruct Hd as [Hd _]. apply Z.leb_le in Hd.
  rewrite length_app, Nat2Z.inj_add, (IHl Hl).
  unfold step_reports. rewrite repeat_length. lia.
Qed.

Lemma pending_reports_length (steps : list command_t) (e : Engine) :
  wf_steps steps = true -> valid_cursor steps e ->
  Z.of_nat (length (pending_reports steps e)) = remaining_ticks steps e.
Proof.
  intros Hwf (cmd & Hcmd & Hdc).
  unfold pending_reports, remaining_ticks. rewrite Hcmd.
  rewrite (total_ticks_at _ _ _ Hcmd).
  rewrite length_app, Nat2Z.inj_add, step_reports_total.
  - unfold step_reports. rewrite repeat_length. lia.
  - apply forallb_skipn. unfold wf_steps in Hwf.
    rewrite !andb_true_iff in Hwf. tauto.
Qed.

(** A tick that does not end the table consumes the first pending
    report. *)
Lemma pending_reports_cons (steps : list command_t) (e e1 : Engine)
    (cmd : command_t) :
  index steps (bufindex e) = Some cmd ->
  0 <= duration_count e <= duration cmd ->
  (if duration_count e <? duration cmd
   then bufindex e1 = bufindex e
        /\ duration_count e1 = duration_count e + 1
   else bufindex e1 = bufindex e + 1 /\ duration_count e1 = 0) ->
  valid_cursor steps e1 ->
  pending_reports steps e
  = take_action (action cmd) neutral_report :: pending_reports steps e1.
Proof.
  intros Hcmd Hdc Hif (cmd1 & Hcmd1 & Hdc1).
  unfold pending_reports. rewrite Hcmd, Hcmd1.
  destruct (Z.ltb_spec (duration_count e) (duration cmd)) as [Hlt|Hge];
    destruct Hif as [Hb Hd]; rewrite Hb in *; rewrite Hd in *.
  - assert (cmd1 = cmd) as -> by congruence.
    unfold step_reports.
    replace (Z.to_nat (duration cmd + 1 - duration_count e))
      with (S (Z.to_nat (duration cmd + 1 - (duration_count e + 1))))
      by lia.
    reflexivity.
  - unfold step_reports at 1.
    replace (Z.to_nat (duration cmd + 1 - duration_count e)) with 1%nat
      by lia.
    cbn [repeat app]. f_equal.
    rewrite (skipn_index _ _ _ Hcmd1). reflexivity.
Qed.

Lemma removelast_cons {A : Type} (x : A) (l : list A) :
  l <> [] -> removelast (x :: l) = x :: removelast l.
Proof. destruct l; [congruence | reflexivity]. Qed.

(** The run of a table from the engines that differ from [e0] in the
    cursor only, when the state's case is a call of [do_steps] on all of
    them. *)
Lemma ticks_family (steps : list command_t) (nx : State_t) (ec : Z)
    (e0 : Engine) :
  wf_steps steps = true ->
  (forall b d,
     states_and_moves neutral_report (set_cursor b d e0)
     = do_steps steps (ARRAY_SIZE steps) neutral_report nx ec
         (set_cursor b d e0)) ->
  forall n b d,
    valid_cursor steps (set_cursor b d e0) ->
    remaining_ticks steps (set_cursor b d e0) = Z.of_nat (S n) ->
    ticks (S n) (set_cursor b d e0)
    = Some (removelast (pending_reports steps (set_cursor b d e0))
            ++ [neutral_report],
            completion nx ec e0)
    /\ forall k, (k <= n)%nat ->
         exists rs b' d',
           ticks k (set_cursor b d e0) = Some (rs, set_cursor b' d' e0).
Proof.
  intros Hwf Hrun. induction n as [|n IHn]; intros b d Hvalid Hrem.
  - destruct (do_steps_cases steps neutral_report nx ec
                (set_cursor b d e0) Hwf Hvalid)
      as [(cmd & e1 & _ & _ & _ & _ & _ & _ & _ & Hge)|(Hdo & _ & _)];
      [lia|].
    split.
    + cbn [ticks]. rewrite Hrun, Hdo. cbn [bind].
      pose proof (pending_reports_length _ _ Hwf Hvalid) as Hlen.
      rewrite Hrem in Hlen.
      destruct (pending_reports steps (set_cursor b d e0)) as [|x [|y l]];
        cbn in Hlen; try lia.
      reflexivity.
    + intros k Hk. assert (k = 0)%nat as -> by lia.
      exists [], b, d. reflexivity.
  - destruct (do_steps_cases steps neutral_report nx ec
                (set_cursor b d e0) Hwf Hvalid)
      as [(cmd & e1 & Hcmd & Hdo & _ & He1 & Hif & Hv1 & Hr1 & _)
         |(_ & _ & H1)];
      [|lia].
    assert (He1' : e1 = set_cursor (bufindex e1) (duration_count e1) e0)
      by exact He1.
    clear He1.
    pose proof Hvalid as (cmd' & Hcmd' & Hdc).
    assert (cmd' = cmd) as -> by congruence.
    pose proof (pending_reports_cons _ _ _ _ Hcmd Hdc Hif Hv1) as Hpend.
    pose proof (pending_reports_length _ _ Hwf Hv1) as Hlen1.
    remember (bufindex e1) as b1. remember (duration_count e1) as d1.
    subst e1.
    destruct (IHn b1 d1 Hv1 ltac:(lia)) as [IHend IHk].
    split.
    + change (ticks (S (S n)) (set_cursor b d e0))
        with (let? (r, e1) :=
                states_and_moves neutral_report (set_cursor b d e0) in
              let? (rs, e2) := ticks (S n) e1 in Some (r :: rs, e2)).
      rewrite Hrun, Hdo. cbn [bind]. rewrite IHend. cbn [bind].
      rewrite Hpend, removelast_cons; [reflexivity|].
      intros Hnil. rewrite Hnil in Hlen1. cbn in Hlen1. lia.
    + intros [|k] Hk.
      * exists [], b, d. reflexivity.
      * destruct (IHk k ltac:(lia)) as (rs & b' & d' & Hticks).
        exists (take_action (action cmd) neutral_report :: rs), b', d'.
        cbn [ticks]. rewrite Hrun, Hdo. cbn [bind].
        rewrite Hticks. reflexivity.
Qed.

(** The same from an engine [e] whose case first prepares the globals
    into [e0]. *)
Lemma ticks_table_from (steps : list command_t) (nx : State_t) (ec : Z)
    (e e0 : Engine) :
  wf_steps steps = true ->
  valid_cursor steps e ->
  e0 = set_cursor (bufindex e) (duration_count e) e0 ->
  state e0 = state e ->
  states_and_moves neutral_report e = states_and_moves neutral_report e0 ->
  (forall b d,
     states_and_moves neutral_report (set_cursor b d e0)
     = do_steps steps (ARRAY_SIZE steps) neutral_report nx ec
         (set_cursor b d e0)) ->
  ticks (Z.to_nat (remaining_ticks steps e)) e
  = Some (removelast (pending_reports steps e) ++ [neutral_report],
          completion nx ec e0)
  /\ forall k, (k < Z.to_nat (remaining_ticks steps e))%nat ->
       exists rs e', ticks k e = Some (rs, e') /\ state e' = state e.
Proof.
  intros Hwf Hvalid Hcur Hst Hsame Hrun.
  pose proof (remaining_ticks_pos steps e Hwf Hvalid) as Hpos.
  assert (Hb : bufindex e0 = bufindex e) by (rewrite Hcur; reflexivity).
  assert (Hd : duration_count e0 = duration_count e)
    by (rewrite Hcur; reflexivity).
  assert (Hvalid0 : valid_cursor steps e0)
    by (unfold valid_cursor; rewrite Hb, Hd; exact Hvalid).
  assert (Hrem0 : remaining_ticks steps e0 = remaining_ticks steps e)
    by (unfold remaining_ticks; rewrite Hb, Hd; reflexivity).
  assert (Hpend0 : pending_reports steps e0 = pending_reports steps e)
    by (unfold pending_reports; rewrite Hb, Hd; reflexivity).
  assert (Hticks : forall k, ticks (S k) e = ticks (S k) e0)
    by (intros k; cbn [ticks]; rewrite Hsame; reflexivity).
  remember (Z.to_nat (remaining_ticks steps e)) as N eqn:HN.
  destruct N as [|n]; [lia|].
  rewrite Hcur in Hvalid0, Hrem0, Hpend0.
  destruct (ticks_family steps nx ec e0 Hwf Hrun n (bufindex e)
              (duration_count e) Hvalid0 ltac:(lia)) as [Hend Hk].
  rewrite Hpend0 in Hend. rewrite <- Hcur in Hend.
  split.
  - rewrite Hticks. exact Hend.
  - intros [|k] Hlt.
    + exists [], e. split; reflexivity.
    + destruct (Hk (S k) ltac:(lia)) as (rs & b' & d' & Hrun').
      rewrite <- Hcur in Hrun'.
      exists rs, (set_cursor b' d' e0). rewrite Hticks.
      split; [exact Hrun' | exact Hst].
Qed.

Ltac use_equations :=
  repeat match goal with
    | H : ?x = _ |- context [?x] => rewrite H
    end.

Ltac table_case e Hs :=
  rewrite <- Hs;
  apply ticks_table_from;
  [ assumption
  | assumption
  | destruct e; reflexivity
  | reflexivity
  | unfold states_and_moves;
    cbn [state egg_set egg_count new_round num_boxes set_new_round];
    use_equations; reflexivity
  | intros b d; unfold states_and_moves;
    cbn [state egg_set egg_count new_round num_boxes set_cursor
         set_duration_count set_bufindex set_new_round];
    use_equations; reflexivity ].

(** A table state, on an engine for which its case calls [do_steps],
    runs its table from the cursor to the end and then moves on. *)
Lemma table_state_run (e : Engine) (steps : list command_t) :
  table_of_state (state e) = Some steps ->
  wf_steps steps = true ->
  runs_table e = true ->
  valid_cursor steps e ->
  ticks (Z.to_nat (remaining_ticks steps e)) e
  = Some (removelast (pending_reports steps e) ++ [neutral_report],
          completion (successor e) (counts_egg (state e)) (prepared e))
  /\ forall k, (k < Z.to_nat (remaining_ticks steps e))%nat ->
       exists rs e', ticks k e = Some (rs, e') /\ state e' = state e.
Proof.
  intros Ht Hwf Hrt Hvalid.
  unfold successor, counts_egg, prepared, runs_table in *.
  destruct (state e) eqn:Hs; cbn in Ht; try discriminate Ht;
    injection Ht as <-.
  - (* BREATHE *) table_case e Hs.
  - (* FLY_TO_NURSERY *)
    destruct (egg_set e >? 1) eqn:Hc1;
      [|destruct (negb (new_round e =? 0)) eqn:Hc2];
      table_case e Hs.
  - (* IN_OUT_NURSERY *) table_case e Hs.
  - (* GO_TO_CIRCLE1 *)
    rewrite Hrt.
    destruct (negb (new_round e =? 0)) eqn:Hc; cbn [andb];
      table_case e Hs.
  - (* APPROACH_NPC *) table_case e Hs.
  - (* SPEAK *) table_case e Hs.
  - (* GO_TO_CIRCLE2 *) table_case e Hs.
  - (* GO_TO_CIRCLE3 *) table_case e Hs.
  - (* OPEN_BOX *) table_case e Hs.
  - (* SELECT_COL *)
    apply andb_true_iff in Hrt. destruct Hrt as [Hlo Hhi].
    apply Z.leb_le in Hlo. apply Z.leb_le in Hhi.
    destruct (egg_set e) as [|[[[]|[]|]|[[]|[]|]|]|] eqn:Hes; try lia;
      table_case e Hs.
  - table_case e Hs.
  - table_case e Hs.
  - table_case e Hs.
  - table_case e Hs.
  - table_case e Hs.
  - table_case e Hs.
  - (* SELECT_COL2 *)
    apply andb_true_iff in Hrt. destruct Hrt as [Hlo Hhi].
    apply Z.leb_le in Hlo. apply Z.leb_le in Hhi.
    destruct (egg_set e) as [|[[[]|[]|]|[[]|[]|]|]|] eqn:Hes; try lia;
      table_case e Hs.
  - table_case e Hs.
  - table_case e Hs.
  - table_case e Hs.
  - table_case e Hs.
  - table_case e Hs.
  - table_case e Hs.
  - (* CLOSE_BOX *) table_case e Hs.
  - (* SAVE *)
    destruct (num_boxes e >? 0) eqn:Hnb; table_case e Hs.
  - (* SLEEP *) table_case e Hs.
Qed.

End TableRuns.

(** ** What a tick may change *)

Section TickFrame.
Context {JH : Joystick_h} {SH : settings_h} {EH : egg_cycles_h}
        {TH : instructions_h} {DA : double_arith}.

Ltac crack_tick H :=
  repeat match type of H with
    | context [match ?x with _ => _ end] => destruct x eqn:?
    end.

Lemma states_and_moves_frame (R r : USB_JoystickReport_Input_t)
    (e e' : Engine) :
  states_and_moves R e = Some (r, e') ->
  echoes e' = echoes e
  /\ last_report e' = last_report e
  /\ (state e <> SYNC_CONTROLLER ->
      breeding_duration e' = breeding_duration e)
  /\ (state e <> CIRCLE_CW -> num_boxes e' = num_boxes e)
  /\ (egg_count e' <> egg_count e ->
      state e = SPEAK \/ state e = CLOSE_BOX \/ state e = CIRCLE_CW)
  /\ state e' <> SYNC_CONTROLLER
  /\ (state e' = FLY_TO_NURSERY2 -> state e = FLY_TO_NURSERY2)
  /\ (state e' = DONE -> state e = SLEEP \/ state e = DONE).
Proof.
  unfold states_and_moves, bind. intros H.
  destruct (state e) eqn:Hs; crack_tick H;
    first
      [ discriminate H
      | injection H as <- <-; cbn;
        repeat split; intros; first [congruence | auto]
      | apply do_steps_frame_aux in H;
        destruct H as (H1 & H2 & H3 & H4 & H5 & H6 & H7 & _);
        cbn in H1, H2, H3, H4, H5, H6, H7;
        try specialize (H7 eq_refl);
        repeat split; intros;
        first [ congruence | tauto | intuition congruence ] ].
Qed.

(** X6.  A tick that returns leaves the echo cache alone, writes
    [breeding_duration] only in [SYNC_CONTROLLER] and [num_boxes] only in
    [CIRCLE_CW], and changes [egg_count] only in [SPEAK], [CLOSE_BOX]
    and [CIRCLE_CW]. *)
Theorem tick_frame :
  forall (R r : USB_JoystickReport_Input_t) (e e' : Engine),
    states_and_moves R e = Some (r, e') ->
    echoes e' = echoes e
    /\ last_report e' = last_report e
    /\ (state e <> SYNC_CONTROLLER ->
        breeding_duration e' = breeding_duration e)
    /\ (state e <> CIRCLE_CW -> num_boxes e' = num_boxes e)
    /\ (egg_count e' <> egg_count e ->
        state e = SPEAK \/ state e = CLOSE_BOX \/ state e = CIRCLE_CW).
Proof.
  intros R r e e' H.
  destruct (states_and_moves_frame R r e e' H)
    as (H1 & H2 & H3 & H4 & H5 & _).
  auto.
Qed.

End TickFrame.

(** ** The transitions of the table states *)

Section Transitions.
Context {JH : Joystick_h} {SH : settings_h} {EH : egg_cycles_h}
        {TH : instructions_h} {DA : double_arith}.

(** What the buffer [GetNextReport] is handed holds before a call. *)
Variable buf : USB_JoystickReport_Input_t.

(** X4.  While a table state runs its table, each tick emits the action
    of the step the cursor is on, applied to a fresh report, except the
    tick that ends the table, which emits the neutral report: the last
    step's action is emitted once less than its duration plus one.  From
    the cursor (0,0) the pending actions are those of the whole
    table. *)
Theorem table_run_reports :
  forall (e : Engine) (steps : list command_t),
    table_of_state (state e) = Some steps ->
    wf_steps steps = true ->
    runs_table e = true ->
    valid_cursor steps e ->
    (exists e',
       ticks (Z.to_nat (remaining_ticks steps e)) e
       = Some (removelast (pending_reports steps e) ++ [neutral_report],
               e'))
    /\ length (pending_reports steps e)
       = Z.to_nat (remaining_ticks steps e)
    /\ (bufindex e = 0 -> duration_count e = 0 ->
        pending_reports steps e
        = flat_map (fun c => step_reports c 0) steps).
Proof.
  intros e steps Ht Hwf Hrt Hvalid.
  destruct (table_state_run e steps Ht Hwf Hrt Hvalid) as [Hrun _].
  split; [eauto|]. split.
  - pose proof (pending_reports_length steps e Hwf Hvalid). lia.
  - intros Hb Hd. destruct Hvalid as (cmd & Hcmd & _).
    unfold pending_reports. rewrite Hcmd, Hb, Hd.
    rewrite Hb in Hcmd. pose proof (skipn_index _ _ _ Hcmd) as Hskip.
    cbn in Hskip. rewrite Hskip at 2. reflexivity.
Qed.

(** X5.  A table state, on an engine for which its case calls
    [do_steps], moves to the successor its case names on the tick that
    ends its table, and on no tick before: that tick is the one numbered
    by the ticks left at the cursor.  It resets the cursor, and counts
    an egg in [SPEAK] and [CLOSE_BOX] only. *)
Theorem table_state_moves_to_successor :
  forall (e : Engine) (steps : list command_t),
    table_of_state (state e) = Some steps ->
    wf_steps steps = true ->
    runs_table e = true ->
    valid_cursor steps e ->
    (exists rs,
       ticks (Z.to_nat (remaining_ticks steps e)) e
       = Some (rs, completion (successor e) (counts_egg (state e))
                     (prepared e)))
    /\ state (completion (successor e) (counts_egg (state e)) (prepared e))
       = successor e
    /\ successor e <> state e
    /\ (forall k, (k < Z.to_nat (remaining_ticks steps e))%nat ->
          exists rs e', ticks k e = Some (rs, e') /\ state e' = state e).
Proof.
  intros e steps Ht Hwf Hrt Hvalid.
  destruct (table_state_run e steps Ht Hwf Hrt Hvalid) as [Hrun Hk].
  split; [eauto|]. split; [reflexivity|]. split; [|exact Hk].
  unfold successor, runs_table in *.
  destruct (state e); try discriminate Ht;
    repeat match goal with
      | |- context [if ?b then _ else _] => destruct b
      end;
    try discriminate.
  - apply andb_true_iff in Hrt. destruct Hrt as [Hlo Hhi].
    apply Z.leb_le in Hlo. apply Z.leb_le in Hhi.
    destruct (egg_set e) as [|[[[]|[]|]|[[]|[]|]|]|];
      first [discriminate | lia].
  - apply andb_true_iff in Hrt. destruct Hrt as [Hlo Hhi].
    apply Z.leb_le in Hlo. apply Z.leb_le in Hhi.
    destruct (egg_set e) as [|[[[]|[]|]|[[]|[]|]|]|];
      first [discriminate | lia].
Qed.

Lemma GetNextReport_frame (r : USB_JoystickReport_Input_t)
    (e e' : Engine) :
  GetNextReport buf e = Some (r, e') ->
  (state e' = SYNC_CONTROLLER -> state e = SYNC_CONTROLLER)
  /\ (state e' = FLY_TO_NURSERY2 -> state e = FLY_TO_NURSERY2)
  /\ (state e' = DONE -> state e = SLEEP \/ state e = DONE)
  /\ (state e <> SYNC_CONTROLLER ->
      breeding_duration e' = breeding_duration e).
Proof.
  unfold GetNextReport.
  change (reset_report buf) with neutral_report.
  destruct (echoes e >? 0).
  - intros [= _ <-]. cbn. repeat split; intros; auto.
  - destruct (states_and_moves neutral_report e) as [[r1 e1]|] eqn:Htick.
    + pose proof (states_and_moves_frame _ _ _ _ Htick)
        as (_ & _ & F3 & _ & _ & F6 & F7 & F8).
      destruct (state e) eqn:Hs; cbn [bind]; intros [= _ <-]; cbn;
        repeat split; intros; first [congruence | tauto | auto].
    + destruct (state e) eqn:Hs; cbn [bind]; intros H;
        first [ discriminate H
              | injection H as _ <-; cbn; repeat split; intros;
                first [congruence | auto] ].
Qed.

Lemma calls_keep (P : Engine -> Prop) :
  (forall r e e', GetNextReport buf e = Some (r, e') -> P e -> P e') ->
  forall n rs e e', calls n buf e = Some (rs, e') -> P e -> P e'.
Proof.
  intros Hstep. induction n as [|n IHn]; intros rs e e' Hcalls HP.
  - injection Hcalls as _ <-. exact HP.
  - cbn [calls] in Hcalls.
    destruct (GetNextReport buf e) as [[r e1]|] eqn:Hcall;
      [|discriminate].
    cbn [bind] in Hcalls.
    destruct (calls n buf e1) as [[rs1 e2]|] eqn:Hrest; [|discriminate].
    cbn [bind] in Hcalls. injection Hcalls as _ <-.
    eapply IHn; eauto.
Qed.

(** X7.  The engine syncs once: after the first call of [GetNextReport]
    from the initial globals the state is never [SYNC_CONTROLLER] again
    (and never [FLY_TO_NURSERY2]), and [breeding_duration] keeps the
    value computed on that call; the value 5500 it starts with is never
    used. *)
Theorem engine_syncs_once :
  forall (n : nat) (rs : list USB_JoystickReport_Input_t) (e' : Engine),
    calls (S n) buf initial_engine = Some (rs, e') ->
    state e' <> SYNC_CONTROLLER
    /\ state e' <> FLY_TO_NURSERY2
    /\ exists cycles,
         index egg_cycles nat_dex_number = Some cycles
         /\ breeding_duration e'
            = truncate
                (breeding_formula
                   (if flame_body =? 0 then cycles else Z.quot cycles 2)).
Proof.
  intros n rs e' Hcalls. cbn [calls] in Hcalls.
  destruct (GetNextReport buf initial_engine) as [[r e1]|] eqn:Hfirst;
    [|discriminate].
  cbn [bind] in Hcalls.
  destruct (calls n buf e1) as [[rs1 e2]|] eqn:Hrest; [|discriminate].
  cbn [bind] in Hcalls. injection Hcalls as _ <-.
  unfold GetNextReport, states_and_moves in Hfirst. cbn in Hfirst.
  destruct (index egg_cycles nat_dex_number) as [cycles|] eqn:Hc;
    [|discriminate].
  cbn [bind] in Hfirst.
  set (c := if flame_body =? 0 then cycles else Z.quot cycles 2).
  assert (Hbd : exists bd,
             double_to_int (breeding_formula c) = Some bd
             /\ bd = truncate (breeding_formula c)
             /\ e1 = set_echoes ECHOES
                       (set_last_report r
                          (set_breeding_duration bd
                             (set_state BREATHE
                                (set_cursor 0 0 initial_engine))))).
  { subst c. unfold double_to_int, int_of in *.
    destruct (flame_body =? 0);
      match type of Hfirst with
      | context [if ?b then _ else _] => destruct b
      end; try discriminate Hfirst;
      cbn [bind] in Hfirst; injection Hfirst as <- <-;
      eexists; repeat split. }
  destruct Hbd as (bd & _ & Hval & He1).
  pose (P := fun e : Engine =>
               state e <> SYNC_CONTROLLER
               /\ state e <> FLY_TO_NURSERY2
               /\ breeding_duration e = bd).
  assert (HP : P e2).
  { apply (calls_keep P) with (n := n) (rs := rs1) (e := e1); auto.
    - intros r0 e0 e0' Hcall (Hs & Hf & Hb).
      destruct (GetNextReport_frame _ _ _ Hcall) as (G1 & G2 & _ & G4).
      unfold P. rewrite (G4 Hs).
      split; [intros H; apply Hs, G1, H|].
      split; [intros H; apply Hf, G2, H | exact Hb].
    - unfold P. rewrite He1. cbn. repeat split; discriminate. }
  destruct HP as (Hs & Hf & Hb).
  split; [exact Hs|]. split; [exact Hf|].
  exists cycles. split; [reflexivity|]. rewrite Hb. exact Hval.
Qed.

(** X8.  [DONE] is absorbing: once the pending echoes have been
    returned, every call returns the neutral report, and nothing but
    [echoes] ever changes. *)
Theorem done_is_absorbing :
  forall (n : nat) (e : Engine),
    state e = DONE ->
    0 <= echoes e ->
    calls (Z.to_nat (echoes e) + n) buf e
    = Some (repeat (last_report e) (Z.to_nat (echoes e))
            ++ repeat neutral_report n,
            set_echoes 0 e).
Proof.
  intros n e Hs Hecho.
  remember (Z.to_nat (echoes e)) as k eqn:Hk.
  revert e Hs Hecho Hk. induction k as [|k IHk]; intros e Hs Hecho Hk.
  - assert (Hzero : echoes e = 0) by lia.
    assert (He : set_echoes 0 e = e)
      by (destruct e; cbn in Hzero; subst; reflexivity).
    rewrite He. cbn [Nat.add repeat app].
    induction n as [|n IHn]; [reflexivity|].
    cbn [calls repeat].
    rewrite (GetNextReport_done buf e) by (auto; lia).
    cbn [bind]. rewrite IHn. reflexivity.
  - cbn [Nat.add calls repeat app].
    rewrite (GetNextReport_echo buf e) by lia. cbn [bind].
    rewrite (IHk (set_echoes (echoes e - 1) e)) by (cbn; auto; lia).
    reflexivity.
Qed.

End Transitions.

(** ** Ticks and calls *)

Section TicksAndCalls.
Context {JH : Joystick_h} {SH : settings_h} {EH : egg_cycles_h}
        {TH : instructions_h} {DA : double_arith}.

(** What the buffer [GetNextReport] is handed holds before a call. *)
Variable buf : USB_JoystickReport_Input_t.

(** The sequence runner neither reads nor writes the echo cache. *)
Lemma do_steps_advance_cache (steps : list command_t)
    (R : USB_JoystickReport_Input_t)
    (x : Z) (y : USB_JoystickReport_Input_t) (e : Engine) :
  do_steps_advance steps R (set_echoes x (set_last_report y e))
  = match do_steps_advance steps R e with
    | Some (r, e') => Some (r, set_echoes x (set_last_report y e'))
    | None => None
    end.
Proof.
  unfold do_steps_advance.
  cbn [bufindex duration_count set_echoes set_last_report].
  destruct (index steps (bufindex e)) as [cmd|]; [|reflexivity].
  cbn [bind].
  destruct (int_of (duration_count e + 1)) as [dc|]; [|reflexivity].
  cbn [bind duration_count bufindex set_duration_count set_echoes
       set_last_report].
  destruct (dc >? duration cmd); [|reflexivity].
  destruct (int_of (bufindex e + 1)) as [bi|]; reflexivity.
Qed.

Lemma do_steps_finish_cache (steps_size : Z)
    (R : USB_JoystickReport_Input_t) (nx : State_t) (ec : Z)
    (x : Z) (y : USB_JoystickReport_Input_t) (e : Engine) :
  do_steps_finish steps_size R nx ec (set_echoes x (set_last_report y e))
  = (fst (do_steps_finish steps_size R nx ec e),
     set_echoes x
       (set_last_report y (snd (do_steps_finish steps_size R nx ec e)))).
Proof.
  unfold do_steps_finish.
  cbn [bufindex set_echoes set_last_report].
  destruct (exhausted steps_size (bufindex e)); [|reflexivity].
  destruct (ec =? 0); [reflexivity|].
  cbn. destruct (to_uint8 (egg_set e + 1) >=? 7); reflexivity.
Qed.

Lemma do_steps_cache (steps : list command_t) (steps_size : Z)
    (R : USB_JoystickReport_Input_t) (nx : State_t) (ec : Z)
    (x : Z) (y : USB_JoystickReport_Input_t) (e : Engine) :
  do_steps steps steps_size R nx ec (set_echoes x (set_last_report y e))
  = match do_steps steps steps_size R nx ec e with
    | Some (r, e') => Some (r, set_echoes x (set_last_report y e'))
    | None => None
    end.
Proof.
  unfold do_steps. rewrite do_steps_advance_cache.
  destruct (do_steps_advance steps R e) as [[R1 e1]|]; [|reflexivity].
  cbn [bind]. rewrite do_steps_finish_cache.
  destruct (do_steps_finish (to_uint16 steps_size) R1 nx ec e1).
  reflexivity.
Qed.

Ltac cache_case x y :=
  match goal with
  | |- do_steps ?s ?z ?R ?nx ?ec _
       = match do_steps _ _ _ _ _ ?e0 with _ => _ end =>
      exact (do_steps_cache s z R nx ec x y e0)
  end.

(** Nor does a tick. *)
Lemma states_and_moves_cache (R : USB_JoystickReport_Input_t)
    (x : Z) (y : USB_JoystickReport_Input_t) (e : Engine) :
  states_and_moves R (set_echoes x (set_last_report y e))
  = match states_and_moves R e with
    | Some (r, e') => Some (r, set_echoes x (set_last_report y e'))
    | None => None
    end.
Proof.
  unfold states_and_moves.
  cbn [state bufindex duration_count egg_set egg_count new_round
       num_boxes breeding_duration set_echoes set_last_report
       set_state set_duration_count set_bufindex set_egg_set
       set_egg_count set_num_boxes set_new_round set_breeding_duration].
  destruct (state e);
    repeat match goal with
      | |- context [if ?b then _ else _] => destruct b
      | |- context [match egg_set e with _ => _ end] =>
          destruct (egg_set e) as [|[[[]|[]|]|[[]|[]|]|]|]
      end;
    first
      [ cache_case x y
      | unfold bind;
        repeat match goal with
          | |- context [match ?t with _ => _ end] => destruct t
          end; reflexivity ].
Qed.

Lemma ticks_cache (n : nat) :
  forall (x : Z) (y : USB_JoystickReport_Input_t) (e : Engine),
    ticks n (set_echoes x (set_last_report y e))
    = match ticks n e with
      | Some (rs, e') => Some (rs, set_echoes x (set_last_report y e'))
      | None => None
      end.
Proof.
  induction n as [|n IHn]; intros x y e; [reflexivity|].
  cbn [ticks]. rewrite states_and_moves_cache.
  destruct (states_and_moves neutral_report e) as [[r e1]|];
    [|reflexivity].
  cbn [bind]. rewrite IHn.
  destruct (ticks n e1) as [[rs e2]|]; reflexivity.
Qed.

(** A fresh call and the two echoes after it. *)
Lemma calls_three (e : Engine) (r : USB_JoystickReport_Input_t)
    (e1 : Engine) :
  echoes e <= 0 ->
  states_and_moves neutral_report e = Some (r, e1) ->
  exists x y,
    calls 3 buf e = Some ([r; r; r], set_echoes x (set_last_report y e1))
    /\ x <= 0.
Proof.
  intros Hecho Htick.
  assert (Hdec : {state e = DONE} + {state e <> DONE})
    by (destruct (state e); (left; reflexivity) || (right; discriminate)).
  destruct Hdec as [Hdone|Hrun].
  - assert (Hsame : r = neutral_report /\ e1 = e).
    { unfold states_and_moves in Htick. rewrite Hdone in Htick.
      injection Htick as <- <-. auto. }
    destruct Hsame as [-> ->].
    exists (echoes e), (last_report e).
    cbn [calls].
    repeat (rewrite (GetNextReport_done buf e Hecho Hdone); cbn [bind]).
    split; [destruct e; reflexivity | exact Hecho].
  - assert (Hfirst : GetNextReport buf e
                     = Some (r, set_echoes ECHOES (set_last_report r e1))).
    { unfold GetNextReport.
      change (reset_report buf) with neutral_report.
      destruct (Z.gtb_spec (echoes e) 0); [lia|]. rewrite Htick.
      destruct (state e); try reflexivity. congruence. }
    exists 0, r. cbn [calls]. rewrite Hfirst. cbn [bind].
    rewrite GetNextReport_echo by (cbn; unfold ECHOES; lia). cbn [bind].
    rewrite GetNextReport_echo by (cbn; unfold ECHOES; lia). cbn [bind].
    split; [reflexivity | lia].
Qed.

Lemma calls_app (n m : nat) (e : Engine) :
  calls (n + m) buf e
  = let? (rs1, e1) := calls n buf e in
    let? (rs2, e2) := calls m buf e1 in
    Some (rs1 ++ rs2, e2).
Proof.
  revert e. induction n as [|n IHn]; intros e.
  - cbn. destruct (calls m buf e) as [[rs e2]|]; reflexivity.
  - cbn [Nat.add calls].
    destruct (GetNextReport buf e) as [[r e1]|]; [|reflexivity].
    cbn [bind]. rewrite IHn.
    destruct (calls n buf e1) as [[rs1 e2]|]; [|reflexivity].
    cbn [bind].
    destruct (calls m buf e2) as [[rs2 e3]|]; reflexivity.
Qed.

Lemma calls_thrice (n : nat) :
  forall (e : Engine) (rs : list USB_JoystickReport_Input_t) (e' : Engine),
    echoes e <= 0 ->
    ticks n e = Some (rs, e') ->
    exists x y,
      calls (3 * n) buf e
      = Some (thrice rs, set_echoes x (set_last_report y e'))
      /\ x <= 0.
Proof.
  induction n as [|n IHn]; intros e rs e' Hecho Hticks.
  - injection Hticks as <- <-.
    exists (echoes e), (last_report e).
    split; [destruct e; reflexivity | exact Hecho].
  - cbn [ticks] in Hticks.
    destruct (states_and_moves neutral_report e) as [[r e1]|] eqn:Htick;
      [|discriminate].
    cbn [bind] in Hticks.
    destruct (ticks n e1) as [[rs1 e2]|] eqn:Hrest; [|discriminate].
    cbn [bind] in Hticks. injection Hticks as <- <-.
    destruct (calls_three e r e1 Hecho Htick) as (x & y & Hthree & Hx).
    pose proof (ticks_cache n x y e1) as Hcache. rewrite Hrest in Hcache.
    destruct (IHn (set_echoes x (set_last_report y e1)) rs1
                (set_echoes x (set_last_report y e2)) Hx Hcache)
      as (x' & y' & Hcalls & Hx').
    exists x', y'.
    replace (3 * S n)%nat with (3 + 3 * n)%nat by lia.
    rewrite calls_app, Hthree. cbn [bind]. rewrite Hcalls. cbn [bind].
    split; [reflexivity | exact Hx'].
Qed.

(** X9.  The host is handed the report of every tick three times in a
    row: three calls of [GetNextReport] advance the state machine by
    one tick, and the globals after [3 * n] calls are those after [n]
    ticks, but for the echo cache. *)
Theorem every_tick_is_sent_thrice :
  forall (n : nat) (e : Engine)
         (rs : list USB_JoystickReport_Input_t) (e' : Engine),
    echoes e <= 0 ->
    ticks n e = Some (rs, e') ->
    exists x y,
      calls (3 * n) buf e
      = Some (thrice rs, set_echoes x (set_last_report y e')).
Proof.
  intros n e rs e' Hecho Hticks.
  destruct (calls_thrice n e rs e' Hecho Hticks) as (x & y & H & _).
  eauto.
Qed.

(** What the caller's buffer holds before a call has no effect:
    [reset_report] overwrites it before anything is read. *)
Lemma calls_ignore_buffer :
  forall (n : nat) (buf' : USB_JoystickReport_Input_t) (e : Engine),
    calls n buf e = calls n buf' e.
Proof.
  induction n as [|n IHn]; intros buf' e; [reflexivity|].
  cbn [calls].
  change (GetNextReport buf e) with (GetNextReport buf' e).
  destruct (GetNextReport buf' e) as [[r e1]|]; [|reflexivity].
  cbn [bind]. rewrite (IHn buf' e1). reflexivity.
Qed.

End TicksAndCalls.

(** ** The reports handed to the host *)

Section EmittedReports.
Context {JH : Joystick_h} {SH : settings_h} {EH : egg_cycles_h}
        {TH : instructions_h} {DA : double_arith}.

(** What the buffer [GetNextReport] is handed holds before a call. *)
Variable buf : USB_JoystickReport_Input_t.

Lemma neutral_report_centred : centred neutral_report.
Proof. repeat split. Qed.

Lemma take_action_centred (a : action_t) (r : USB_JoystickReport_Input_t) :
  centred r -> centred (take_action a r).
Proof.
  intros Hr. destruct a; first [exact Hr | exact neutral_report_centred].
Qed.

Ltac crack_report H :=
  repeat match type of H with
    | context [match ?x with _ => _ end] => destruct x eqn:?
    end.

Lemma states_and_moves_centred (r : USB_JoystickReport_Input_t)
    (e e' : Engine) :
  states_and_moves neutral_report e = Some (r, e') -> centred r.
Proof.
  unfold states_and_moves, bind. intros H.
  destruct (state e); crack_report H;
    first
      [ discriminate H
      | injection H as <- _;
        repeat apply take_action_centred; exact neutral_report_centred
      | apply do_steps_frame_aux in H;
        destruct H as (_ & _ & _ & _ & _ & _ & _ & [-> | (cmd & _ & ->)]);
        [ exact neutral_report_centred
        | apply take_action_centred; exact neutral_report_centred ] ].
Qed.

Lemma GetNextReport_centred (r : USB_JoystickReport_Input_t)
    (e e1 : Engine) :
  (0 < echoes e -> centred (last_report e)) ->
  GetNextReport buf e = Some (r, e1) ->
  centred r /\ (0 < echoes e1 -> centred (last_report e1)).
Proof.
  intros Hinv. unfold GetNextReport.
  change (reset_report buf) with neutral_report.
  destruct (Z.gtb_spec (echoes e) 0) as [Hecho|Hfresh].
  - intros [= <- <-]. cbn. auto.
  - destruct (states_and_moves neutral_report e) as [[r1 e']|] eqn:Htick.
    + pose proof (states_and_moves_centred _ _ _ Htick) as Hc.
      destruct (state e); cbn [bind]; intros [= <- <-]; cbn;
        first [ split; [exact Hc | intros _; exact Hc]
              | split; [exact neutral_report_centred | intros; lia] ].
    + destruct (state e); cbn [bind]; intros H;
        first [ discriminate H
              | injection H as <- <-;
                split; [exact neutral_report_centred | intros; lia] ].
Qed.

(** X10.  Every report handed to the host, from the initial globals on,
    has the right stick and the pad centred: the engine only ever moves
    the left stick and presses buttons. *)
Theorem host_reports_are_centred :
  forall (n : nat) (rs : list USB_JoystickReport_Input_t) (e' : Engine),
    calls n buf initial_engine = Some (rs, e') ->
    Forall centred rs.
Proof.
  intros n.
  assert (Hgen : forall e rs e',
             (0 < echoes e -> centred (last_report e)) ->
             calls n buf e = Some (rs, e') -> Forall centred rs).
  { induction n as [|n IHn]; intros e rs e' Hinv Hcalls.
    - injection Hcalls as <- _. constructor.
    - cbn [calls] in Hcalls.
      destruct (GetNextReport buf e) as [[r e1]|] eqn:Hcall;
        [|discriminate].
      cbn [bind] in Hcalls.
      destruct (calls n buf e1) as [[rs1 e2]|] eqn:Hrest; [|discriminate].
      cbn [bind] in Hcalls. injection Hcalls as <- _.
      destruct (GetNextReport_centred _ _ _ Hinv Hcall) as [Hr Hinv1].
      constructor; [exact Hr|]. eapply IHn; eauto. }
  intros rs e' Hcalls. eapply Hgen; [|exact Hcalls].
  cbn. lia.
Qed.

(** One tick of [CIRCLE_CW] below the threshold. *)
Lemma circle_cw_tick (e : Engine) :
  state e = CIRCLE_CW ->
  0 <= duration_count e ->
  duration_count e + 1 <= breeding_duration e + 4200 ->
  breeding_duration e + 4200 <= INT_MAX ->
  states_and_moves neutral_report e
  = Some (circle_cw_report (duration_count e + 1),
          set_duration_count (duration_count e + 1) e).
Proof.
  intros Hs Hlo Hhi Hmax. unfold states_and_moves. rewrite Hs.
  rewrite (int_of_in_range (duration_count e + 1))
    by (unfold INT_MIN; lia).
  cbn [bind duration_count set_duration_count breeding_duration].
  rewrite (int_of_in_range (breeding_duration e + 4200))
    by (unfold INT_MIN; lia).
  cbn [bind].
  destruct (Z.gtb_spec (duration_count e + 1) (breeding_duration e + 4200));
    [lia | reflexivity].
Qed.

(** The tick of [CIRCLE_CW] that passes the threshold. *)
Lemma circle_cw_last_tick (e : Engine) :
  state e = CIRCLE_CW ->
  0 <= duration_count e < INT_MAX ->
  breeding_duration e + 4200 < duration_count e + 1 ->
  INT_MIN <= breeding_duration e + 4200 ->
  exists r e',
    states_and_moves neutral_report e = Some (r, e')
    /\ (state e' = SAVE \/ state e' = FLY_TO_NURSERY \/ state e' = SLEEP)
    /\ bufindex e' = 0 /\ duration_count e' = 0.
Proof.
  intros Hs Hdc Hend Hmin. unfold states_and_moves. rewrite Hs.
  rewrite (int_of_in_range (duration_count e + 1))
    by (unfold INT_MIN, INT_MAX in *; lia).
  cbn [bind duration_count set_duration_count breeding_duration].
  rewrite (int_of_in_range (breeding_duration e + 4200))
    by (unfold INT_MIN, INT_MAX in *; lia).
  cbn [bind].
  destruct (Z.gtb_spec (duration_count e + 1) (breeding_duration e + 4200));
    [|lia].
  cbn [egg_set set_bufindex set_duration_count].
  destruct (egg_set e =? 1).
  - cbn [num_boxes set_num_boxes set_egg_count set_bufindex
         set_duration_count].
    destruct ((save =? 1)
              || (save =? 2) && (to_uint8 (num_boxes e - 1) <=? 0));
      [|destruct (to_uint8 (num_boxes e - 1) >? 0)];
      (do 2 eexists; split; [reflexivity|]; cbn; auto).
  - do 2 eexists. split; [reflexivity|]. cbn. auto.
Qed.

Lemma circle_cw_ticks (n : nat) :
  forall e,
    state e = CIRCLE_CW ->
    0 <= duration_count e ->
    duration_count e + Z.of_nat n <= breeding_duration e + 4200 ->
    breeding_duration e + 4200 <= INT_MAX ->
    ticks n e
    = Some (map (fun k => circle_cw_report (duration_count e + Z.of_nat k))
              (seq 1 n),
            set_duration_count (duration_count e + Z.of_nat n) e).
Proof.
  induction n as [|n IHn]; intros e Hs Hlo Hhi Hmax.
  - cbn. rewrite Z.add_0_r. destruct e; reflexivity.
  - cbn [ticks]. rewrite (circle_cw_tick e Hs) by lia.
    cbn [bind].
    rewrite IHn by (cbn; first [assumption | lia]).
    cbn [bind duration_count set_duration_count].
    f_equal. f_equal.
    + cbn [seq map]. f_equal.
      rewrite <- (seq_shift n 1), map_map. apply map_ext. intros k.
      f_equal. lia.
    + replace (duration_count e + 1 + Z.of_nat n)
        with (duration_count e + Z.of_nat (S n)) by lia.
      reflexivity.
Qed.

(** X11.  Entered with the count at 0 and a threshold
    [breeding_duration + 4200] between 0 and [INT_MAX], [CIRCLE_CW]
    lasts [breeding_duration + 4201] ticks: each tick up to the threshold
    only counts and emits the report of its count, with A pressed
    exactly on the counts that are 0..5 modulo 24, and the tick after
    leaves the state for [SAVE], [FLY_TO_NURSERY] or [SLEEP] with the
    cursor reset. *)
Theorem circle_cw_run :
  forall (e : Engine),
    state e = CIRCLE_CW ->
    duration_count e = 0 ->
    0 <= breeding_duration e + 4200 < INT_MAX ->
    (forall n, Z.of_nat n <= breeding_duration e + 4200 ->
       ticks n e
       = Some (map (fun k => circle_cw_report (Z.of_nat k)) (seq 1 n),
               set_duration_count (Z.of_nat n) e))
    /\ (exists rs e',
          ticks (S (Z.to_nat (breeding_duration e + 4200))) e
          = Some (rs, e')
          /\ (state e' = SAVE \/ state e' = FLY_TO_NURSERY
              \/ state e' = SLEEP)
          /\ bufindex e' = 0 /\ duration_count e' = 0)
    /\ (forall k, 0 <= k ->
          Button (circle_cw_report k)
          = if k mod 24 <=? 5 then SWITCH_A else 0).
Proof.
  intros e Hs Hd Hbd. split; [|split].
  - intros n Hn. rewrite (circle_cw_ticks n e Hs) by lia.
    rewrite Hd. reflexivity.
  - replace (S (Z.to_nat (breeding_duration e + 4200)))
      with (Z.to_nat (breeding_duration e + 4200) + 1)%nat by lia.
    rewrite ticks_app.
    rewrite (circle_cw_ticks _ e Hs) by lia.
    rewrite Hd. cbn [bind ticks].
    destruct (circle_cw_last_tick
                (set_duration_count
                   (0 + Z.of_nat (Z.to_nat (breeding_duration e + 4200)))
                   e))
      as (r & e' & Htick & Hst & Hb & Hdc);
      try (cbn; first [assumption | unfold INT_MIN; lia]).
    rewrite Htick. cbn [bind]. eauto 10.
  - intros k Hk. unfold circle_cw_report, c_mod.
    rewrite Z.rem_mod_nonneg by lia.
    pose proof (Z.mod_pos_bound k 24 ltac:(lia)) as Hm.
    destruct (Z.geb_spec (k mod 24) 0); [|lia]. cbn [andb].
    rewrite Z.rem_mod_nonneg by lia.
    destruct (k mod 24 <=? 5);
      repeat match goal with
        | |- context [if ?b then _ else _] => destruct b
        end; cbn; rewrite ?Z.lor_0_l; reflexivity.
Qed.

End EmittedReports.

(** ** A pass over one column of the box *)

Section ColumnPass.
Context {JH : Joystick_h} {SH : settings_h} {EH : egg_cycles_h}
        {TH : instructions_h} {DA : double_arith}.

Lemma pending_reports_start (steps : list command_t) (e : Engine) :
  valid_cursor steps e ->
  bufindex e = 0 -> duration_count e = 0 ->
  pending_reports steps e = flat_map (fun c => step_reports c 0) steps.
Proof.
  intros Hvalid Hb Hd. destruct Hvalid as (cmd & Hcmd & _).
  unfold pending_reports. rewrite Hcmd, Hb, Hd.
  rewrite Hb in Hcmd. pose proof (skipn_index _ _ _ Hcmd) as Hskip.
  cbn in Hskip. rewrite Hskip at 2. reflexivity.
Qed.

Lemma table_step (e : Engine) (steps : list command_t) :
  table_of_state (state e) = Some steps ->
  wf_steps steps = true ->
  runs_table e = true ->
  bufindex e = 0 -> duration_count e = 0 ->
  ticks (table_ticks steps) e
  = Some (table_reports steps,
          completion (successor e) (counts_egg (state e)) (prepared e)).
Proof.
  intros Ht Hwf Hrt Hb Hd.
  pose proof (valid_cursor_start steps e Hwf Hb Hd) as Hvalid.
  destruct (table_state_run e steps Ht Hwf Hrt Hvalid) as [Hrun _].
  assert (Hrem : remaining_ticks steps e = total_ticks steps).
  { unfold remaining_ticks. rewrite Hb, Hd.
    change (Z.to_nat 0) with 0%nat. cbn [skipn]. lia. }
  rewrite Hrem, (pending_reports_start steps e Hvalid Hb Hd) in Hrun.
  exact Hrun.
Qed.

Lemma ticks_then (n m : nat) (e e1 e2 : Engine)
    (rs1 rs2 : list USB_JoystickReport_Input_t) :
  ticks n e = Some (rs1, e1) ->
  ticks m e1 = Some (rs2, e2) ->
  ticks (n + m) e = Some (rs1 ++ rs2, e2).
Proof.
  intros H1 H2. rewrite ticks_app, H1. cbn [bind]. rewrite H2.
  reflexivity.
Qed.

Lemma completion_twice (nx nx' : State_t) (ec : Z) (e : Engine) :
  completion nx ec (completion nx' 0 e) = completion nx ec e.
Proof.
  unfold completion, count_egg. cbn.
  destruct (ec =? 0); [reflexivity|].
  cbn. destruct (to_uint8 (egg_set e + 1) >=? 7); reflexivity.
Qed.

Ltac next_table Hwf E tbl s Hes H :=
  assert (H : ticks (table_ticks tbl) E
              = Some (table_reports tbl,
                      completion (successor E) (counts_egg (state E))
                        (prepared E)));
  [ apply table_step;
    [ reflexivity
    | apply (wf_headers_tables s tbl Hwf); reflexivity
    | unfold runs_table; cbn; rewrite ?Hes; reflexivity
    | reflexivity
    | reflexivity ]
  | unfold successor, counts_egg, prepared in H;
    cbn [state completion set_state set_cursor set_duration_count
         set_bufindex egg_set Z.eqb] in H;
    rewrite ?Hes in H; rewrite ?completion_twice in H ].

(** X12.  One pass over a column of the box: from [OPEN_BOX] at the
    start of its table, with [egg_set = k] within 1..6, the engine runs,
    in this order and each from its first step to its last, the tables
    [open_box] (leaving it in [SELECT_COL]), [select_col] (leaving it in
    the pre-grab state of column [k]), the pre-grab table of column [k]
    ([SELECT_COL2]), [select_col] again (the post-grab state of column
    [k]), the post-grab table of column [k] ([CLOSE_BOX]) and
    [close_box]; between the tables only the state changes.  The
    reports of the pass are those of the six tables one after another,
    and it ends in [CIRCLE_CW] with the cursor reset, [egg_count]
    decremented and [egg_set] advanced to the next column; nothing else
    has changed. *)
Theorem column_pass :
  forall (e : Engine),
    wf_headers = true ->
    state e = OPEN_BOX ->
    bufindex e = 0 -> duration_count e = 0 ->
    1 <= egg_set e <= 6 ->
    ticks (table_ticks open_box) e
    = Some (table_reports open_box, completion SELECT_COL 0 e)
    /\ ticks (table_ticks select_col) (completion SELECT_COL 0 e)
       = Some (table_reports select_col,
               completion (grab_pre_state (egg_set e)) 0 e)
    /\ ticks (table_ticks (grab_eggs_pre (egg_set e)))
         (completion (grab_pre_state (egg_set e)) 0 e)
       = Some (table_reports (grab_eggs_pre (egg_set e)),
               completion SELECT_COL2 0 e)
    /\ ticks (table_ticks select_col) (completion SELECT_COL2 0 e)
       = Some (table_reports select_col,
               completion (grab_post_state (egg_set e)) 0 e)
    /\ ticks (table_ticks (grab_eggs_post (egg_set e)))
         (completion (grab_post_state (egg_set e)) 0 e)
       = Some (table_reports (grab_eggs_post (egg_set e)),
               completion CLOSE_BOX 0 e)
    /\ ticks (table_ticks close_box) (completion CLOSE_BOX 0 e)
       = Some (table_reports close_box, completion CIRCLE_CW 1 e)
    /\ ticks (table_ticks open_box
              + (table_ticks select_col
                 + (table_ticks (grab_eggs_pre (egg_set e))
                    + (table_ticks select_col
                       + (table_ticks (grab_eggs_post (egg_set e))
                          + table_ticks close_box))))) e
       = Some (table_reports open_box
               ++ table_reports select_col
               ++ table_reports (grab_eggs_pre (egg_set e))
               ++ table_reports select_col
               ++ table_reports (grab_eggs_post (egg_set e))
               ++ table_reports close_box,
               completion CIRCLE_CW 1 e)
    /\ egg_set (completion CIRCLE_CW 1 e) = egg_set e mod 6 + 1
    /\ egg_count (completion CIRCLE_CW 1 e)
       = to_uint8 (egg_count e - 1).
Proof.
  intros e Hwf Hs Hb Hd Hset.
  assert (Heggs : egg_set (completion CIRCLE_CW 1 e) = egg_set e mod 6 + 1
                  /\ egg_count (completion CIRCLE_CW 1 e)
                     = to_uint8 (egg_count e - 1)).
  { unfold completion, count_egg. cbn.
    pose proof (next_egg_set_in_range _ Hset) as Hnext.
    unfold to_uint8 in *. rewrite (Z.mod_small (egg_set e + 1)) in * by lia.
    destruct (Z.geb_spec (egg_set e + 1) 7); cbn.
    - assert (egg_set e = 6) as -> by lia. split; reflexivity.
    - rewrite Z.mod_small by lia. split; reflexivity. }
  assert (H1 : ticks (table_ticks open_box) e
               = Some (table_reports open_box,
                       completion (successor e) (counts_egg (state e))
                         (prepared e))).
  { apply table_step;
      [ rewrite Hs; reflexivity
      | apply (wf_headers_tables OPEN_BOX open_box Hwf); reflexivity
      | unfold runs_table; rewrite Hs; reflexivity
      | assumption | assumption ]. }
  unfold successor, counts_egg, prepared in H1. rewrite Hs in H1.
  assert (Hcases : egg_set e = 1 \/ egg_set e = 2 \/ egg_set e = 3
                   \/ egg_set e = 4 \/ egg_set e = 5 \/ egg_set e = 6)
    by lia.
  destruct Hcases as [Hes|[Hes|[Hes|[Hes|[Hes|Hes]]]]]; rewrite Hes;
    cbn [grab_eggs_pre grab_eggs_post grab_pre_state grab_post_state].
  all: next_table Hwf (completion SELECT_COL 0 e) select_col SELECT_COL
         Hes H2.
  all: match type of H2 with
       | _ = Some (_, completion ?s1 0 ?E1) =>
           match goal with
           | |- context [(table_ticks select_col
                          + (table_ticks ?pre + _))%nat] =>
               next_table Hwf (completion s1 0 E1) pre s1 Hes H3
           end
       end.
  all: match type of H3 with
       | _ = Some (_, completion ?s2 0 ?E2) =>
           next_table Hwf (completion s2 0 E2) select_col s2 Hes H4
       end.
  all: match type of H4 with
       | _ = Some (_, completion ?s3 0 ?E3) =>
           match goal with
           | |- context [(table_ticks ?post
                          + table_ticks close_box)%nat] =>
               next_table Hwf (completion s3 0 E3) post s3 Hes H5
           end
       end.
  all: match type of H5 with
       | _ = Some (_, completion ?s4 0 ?E4) =>
           next_table Hwf (completion s4 0 E4) close_box s4 Hes H6
       end.
  all: rewrite Hes in Heggs.
  all: pose proof (ticks_then _ _ _ _ _ _ _ H1
                     (ticks_then _ _ _ _ _ _ _ H2
                        (ticks_then _ _ _ _ _ _ _ H3
                           (ticks_then _ _ _ _ _ _ _ H4
                              (ticks_then _ _ _ _ _ _ _ H5 H6)))))
         as Hall.
  all: repeat (split; [eassumption|]); exact Heggs.
Qed.

End ColumnPass.

(** ** The further properties on the sample configuration *)

Section FurtherExamples.
#[local] Existing Instance Sample.joystick.
#[local] Existing Instance Sample.settings.
#[local] Existing Instance Sample.cycles.
#[local] Existing Instance Sample.instructions.
#[local] Existing Instance Sample.exact.

Lemma take_action_commute_witness :
  take_action press_a (take_action L_left Sample.busy_report)
  = take_action L_left (take_action press_a Sample.busy_report).
Proof.
  apply take_action_commute; reflexivity.
Defined.

Lemma do_steps_frame_witness :
  exists r e',
    do_steps Sample.two_steps 2 neutral_report SPEAK 1
      (Sample.engine_at APPROACH_NPC 1 1) = Some (r, e')
    /\ num_boxes e' = 2 /\ (state e' = APPROACH_NPC \/ state e' = SPEAK).
Proof.
  destruct (do_steps Sample.two_steps 2 neutral_report SPEAK 1
              (Sample.engine_at APPROACH_NPC 1 1))
    as [[r e']|] eqn:Hdo; [|vm_compute in Hdo; discriminate Hdo].
  exists r, e'. split; [reflexivity|].
  destruct (do_steps_frame _ _ _ _ _ _ _ _ Hdo)
    as (_ & _ & Hboxes & _ & _ & Hstate & _).
  split; [exact Hboxes | exact Hstate].
Defined.

Lemma speak_cursor_valid :
  valid_cursor speak (Sample.engine_at SPEAK 0 0).
Proof. apply valid_cursor_start; reflexivity. Qed.

Lemma table_run_reports_witness :
  exists e',
    ticks 7 (Sample.engine_at SPEAK 0 0)
    = Some (repeat (take_action press_a neutral_report) 3
            ++ repeat neutral_report 4, e').
Proof.
  destruct (table_run_reports (Sample.engine_at SPEAK 0 0) speak
              ltac:(reflexivity) ltac:(reflexivity) ltac:(reflexivity)
              speak_cursor_valid)
    as (Hrun & _).
  exact Hrun.
Defined.

Lemma table_state_moves_to_successor_witness :
  exists rs,
    ticks 7 (Sample.engine_at SPEAK 0 0)
    = Some (rs, completion GO_TO_CIRCLE2 1 (Sample.engine_at SPEAK 0 0)).
Proof.
  destruct (table_state_moves_to_successor (Sample.engine_at SPEAK 0 0)
              speak ltac:(reflexivity) ltac:(reflexivity)
              ltac:(reflexivity) speak_cursor_valid)
    as (Hrun & _).
  exact Hrun.
Defined.

Lemma tick_frame_witness :
  exists r e',
    states_and_moves neutral_report (Sample.engine_at CLOSE_BOX 1 3)
    = Some (r, e')
    /\ num_boxes e' = 2 /\ breeding_duration e' = 5500.
Proof.
  destruct (states_and_moves neutral_report
              (Sample.engine_at CLOSE_BOX 1 3))
    as [[r e']|] eqn:Htick; [|vm_compute in Htick; discriminate Htick].
  exists r, e'. split; [reflexivity|].
  destruct (tick_frame _ _ _ _ Htick) as (_ & _ & Hbd & Hboxes & _).
  split; [apply Hboxes | apply Hbd]; discriminate.
Defined.

Lemma engine_syncs_once_witness :
  exists rs e',
    calls 4 Sample.busy_report initial_engine = Some (rs, e')
    /\ state e' <> SYNC_CONTROLLER /\ breeding_duration e' = 6661.
Proof.
  destruct (calls 4 Sample.busy_report initial_engine)
    as [[rs e']|] eqn:Hcalls; [|vm_compute in Hcalls; discriminate Hcalls].
  exists rs, e'. split; [reflexivity|].
  destruct (engine_syncs_once Sample.busy_report 3 rs e' Hcalls)
    as (Hs & _ & cycles & Hc & Hbd).
  split; [exact Hs|]. rewrite Hbd.
  injection Hc as <-. reflexivity.
Defined.

Lemma done_is_absorbing_witness :
  calls 5 Sample.busy_report (set_echoes 2 (Sample.engine_at DONE 0 0))
  = Some ([Sample.busy_report; Sample.busy_report;
           neutral_report; neutral_report; neutral_report],
          Sample.engine_at DONE 0 0).
Proof.
  exact (done_is_absorbing Sample.busy_report 3
           (set_echoes 2 (Sample.engine_at DONE 0 0)) eq_refl
           ltac:(cbn; lia)).
Defined.

Lemma every_tick_is_sent_thrice_witness :
  exists rs e' x y,
    ticks 2 (Sample.engine_at SPEAK 0 0) = Some (rs, e')
    /\ calls 6 Sample.busy_report (Sample.engine_at SPEAK 0 0)
       = Some (thrice rs, set_echoes x (set_last_report y e')).
Proof.
  destruct (ticks 2 (Sample.engine_at SPEAK 0 0))
    as [[rs e']|] eqn:Hticks; [|vm_compute in Hticks; discriminate Hticks].
  destruct (every_tick_is_sent_thrice Sample.busy_report 2
              (Sample.engine_at SPEAK 0 0) rs e'
              ltac:(cbn; lia) Hticks) as (x & y & Hcalls).
  exists rs, e', x, y. split; [reflexivity | exact Hcalls].
Defined.

Lemma host_reports_are_centred_witness :
  exists rs e',
    calls 12 Sample.busy_report initial_engine = Some (rs, e')
    /\ Forall centred rs.
Proof.
  destruct (calls 12 Sample.busy_report initial_engine)
    as [[rs e']|] eqn:Hcalls; [|vm_compute in Hcalls; discriminate Hcalls].
  exists rs, e'. split; [reflexivity|].
  exact (host_reports_are_centred Sample.busy_report 12 rs e' Hcalls).
Defined.

Lemma circle_cw_run_witness :
  exists rs e',
    ticks (S (Z.to_nat 9700)) (Sample.engine_at CIRCLE_CW 0 0)
    = Some (rs, e')
    /\ (state e' = SAVE \/ state e' = FLY_TO_NURSERY \/ state e' = SLEEP).
Proof.
  destruct (circle_cw_run (Sample.engine_at CIRCLE_CW 0 0) eq_refl eq_refl
              ltac:(vm_compute; split; [discriminate | reflexivity]))
    as (_ & (rs & e' & Hrun & Hst & _) & _).
  exists rs, e'. split; [exact Hrun | exact Hst].
Defined.

Lemma column_pass_witness :
  ticks (7 + (7 + (7 + (7 + (7 + 7))))) (Sample.engine_at OPEN_BOX 0 0)
  = Some (table_reports (Sample.press press_x)
          ++ table_reports (Sample.press press_y)
          ++ table_reports (Sample.press L_down_slight)
          ++ table_reports (Sample.press press_y)
          ++ table_reports (Sample.press L_up_slight)
          ++ table_reports (Sample.press press_b),
          completion CIRCLE_CW 1 (Sample.engine_at OPEN_BOX 0 0)).
Proof.
  assert (Hwf : wf_headers = true) by reflexivity.
  destruct (column_pass (Sample.engine_at OPEN_BOX 0 0) Hwf eq_refl
              eq_refl eq_refl ltac:(cbn; lia))
    as (_ & _ & _ & _ & _ & _ & Hrun & _).
  exact Hrun.
Defined.

End FurtherExamples.
